(** * SysCleanX: the scan/clean accounting engine

    A shallow embedding of [SystemScanner] and [SystemCleaner] of
    [SysCleanX.py], and of the two worker functions of [SysCleanXApp] that
    call them, together with the properties of the accounting engine.

    Python integers are [Z]; paths, patterns, registry names and registry
    data are [string]; the registry values of one key are a [gmap]; a Python
    exception is a value of [exn] carried by [result]; local variables that a
    [try] block updates are the state of a small state-and-exception monad,
    so that a handler sees the values at the moment of the [raise]. *)

From Stdlib Require Import ZArith NArith QArith.QArith_base Ascii String Sorting.Sorted.
From stdpp Require Import gmap strings list fin_maps.

Set Warnings "-register-all".

Local Open Scope Z_scope.
Local Open Scope string_scope.
Local Open Scope list_scope.

(** ** Exceptions *)

(** The error numbers the model distinguishes. *)
Inductive errno : Type := ENOENT | EACCES | ENOTDIR | ELOOP | ENOTEMPTY | ENODATA.

(** Python exceptions. [OSError ENOENT] is [FileNotFoundError] and
    [OSError EACCES] is [PermissionError]; both are subclasses of [OSError].
    The other constructors are exceptions that are not [OSError]s. *)
Inductive exn : Type :=
| OSError (e : errno)
| ValueError
| KeyError
| RuntimeError.

Inductive result (A : Type) : Type :=
| Ok (a : A)
| Err (e : exn).
Arguments Ok {A} a.
Arguments Err {A} e.

(** [except (OSError, PermissionError)] and [except (OSError, FileNotFoundError)]. *)
Definition is_OSError (e : exn) : bool :=
  match e with OSError _ => true | _ => false end.

(** [except FileNotFoundError]. *)
Definition is_FileNotFoundError (e : exn) : bool :=
  match e with OSError ENOENT => true | _ => false end.

(** [except Exception]. *)
Definition is_Exception (e : exn) : bool := true.

(** ** Local state and exceptions *)

Module Py.

(** A computation over mutable state [S] that returns or raises; the state
    reached at a [raise] is kept. *)
Definition M (S A : Type) : Type := S -> result A * S.

Definition ret {S A} (a : A) : M S A := fun s => (Ok a, s).

Definition bind {S A B} (m : M S A) (k : A -> M S B) : M S B :=
  fun s => match m s with
           | (Ok a, s') => k a s'
           | (Err e, s') => (Err e, s')
           end.

Definition raise {S A} (e : exn) : M S A := fun s => (Err e, s).

Definition lift {S A} (r : result A) : M S A := fun s => (r, s).

Definition get {S} : M S S := fun s => (Ok s, s).

Definition modify {S} (f : S -> S) : M S unit := fun s => (Ok tt, f s).

(** [try: body except <classes>: handler]. *)
Definition try_except {S A} (body : M S A) (classes : exn -> bool)
    (handler : exn -> M S A) : M S A :=
  fun s => match body s with
           | (Err e, s') => if classes e then handler e s' else (Err e, s')
           | r => r
           end.

(** [for x in xs: body]. *)
Fixpoint for_ {S A} (xs : list A) (body : A -> M S unit) : M S unit :=
  match xs with
  | [] => ret tt
  | x :: xs' => bind (body x) (fun _ => for_ xs' body)
  end.

(** Run a function body from the initial values of its locals. *)
Definition run {S A} (init : S) (m : M S A) : result A := fst (m init).

End Py.

Notation "'let*' x ':=' m 'in' k" := (Py.bind m (fun x => k))
  (at level 10, x pattern, m at level 100, k at level 200).
Notation "m ;; k" := (Py.bind m (fun _ => k))
  (at level 100, right associativity).

(** ** Paths *)

(** The separators of [ntpath]. *)
Definition is_sep (c : ascii) : bool :=
  (Ascii.eqb c "\"%char || Ascii.eqb c "/"%char)%bool.

Definition last_char (s : string) : option ascii :=
  last (list_ascii_of_string s).

(** [os.path.join(a, b)] for a second argument that is a plain name: a
    separator is added unless [a] is empty or already ends in one. (A bare
    drive designator such as [C:] is relative to the drive's current
    directory in [ntpath]; relative paths are outside the model.) *)
Definition os_path_join (a b : string) : string :=
  match last_char a with
  | None => b
  | Some c => if is_sep c then a +:+ b else a +:+ "\" +:+ b
  end.

(** Split [s] at the characters that satisfy [sep], dropping empty pieces;
    [cur] is the piece read so far. *)
Fixpoint split_on (sep : ascii -> bool) (cur s : string) : list string :=
  match s with
  | EmptyString => if String.eqb cur "" then [] else [cur]
  | String c s' =>
      if sep c
      then (if String.eqb cur "" then [] else [cur]) ++ split_on sep "" s'
      else split_on sep (cur +:+ String c "") s'
  end.

(** The components of a path, from the root of the name space: the drive
    first, then one name per directory level. *)
Definition path_components (p : string) : list string := split_on is_sep "" p.

(** The components of a registry key path; only the backslash separates. *)
Definition key_components (p : string) : list string :=
  split_on (Ascii.eqb "\"%char) "" p.

(** [needle in haystack] on strings. *)
Fixpoint contains (needle haystack : string) : bool :=
  (String.prefix needle haystack ||
   match haystack with
   | EmptyString => false
   | String _ rest => contains needle rest
   end)%bool.

(** ** The file system *)

(** A file-system object: a regular file with its size in bytes, a symbolic
    link with its (absolute) target, or a directory with its entries in
    listing order. *)
Inductive node : Type :=
| File (size : N)
| Symlink (target : string)
| Dir (entries : list (string * node)).

Fixpoint lookup_entry (name : string) (es : list (string * node)) : option node :=
  match es with
  | [] => None
  | (n, c) :: es' => if String.eqb n name then Some c else lookup_entry name es'
  end.

Definition is_nil {A} (l : list A) : bool :=
  match l with [] => true | _ => false end.

(** One pass over the components of a path, from directory [cur] reached by
    the link-free components [here]. Symbolic links are followed (by
    [follow_link], from the root) in every component but the last, and in
    the last one when [follow_last] is set: [stat] against [lstat]. *)
Fixpoint walk_components (follow_link : string -> option (list string * node))
    (follow_last : bool) (here : list string) (cur : node) (cs : list string)
    {struct cs} : option (list string * node) :=
  match cs with
  | [] => Some (here, cur)
  | c :: cs' =>
      match cur with
      | Dir es =>
          match lookup_entry c es with
          | None => None
          | Some (Symlink t) =>
              if (is_nil cs' && negb follow_last)%bool
              then Some (here ++ [c], Symlink t)
              else match follow_link t with
                   | Some (here', tgt) =>
                       walk_components follow_link follow_last here' tgt cs'
                   | None => None
                   end
          | Some child =>
              walk_components follow_link follow_last (here ++ [c]) child cs'
          end
      | _ => None
      end
  end.

(** Path resolution from the root. [fuel] bounds the depth of links followed
    inside links, as the operating system does. The result is the object
    together with the link-free components that lead to it. *)
Fixpoint resolve (fuel : nat) (root : node) (follow_last : bool)
    (comps : list string) {struct fuel} : option (list string * node) :=
  walk_components
    (fun t => match fuel with
              | O => None
              | S fuel' => resolve fuel' root true (path_components t)
              end)
    follow_last [] root comps.

Definition MAXSYMLINKS : nat := 40.

(** The object a path string leads to, if any, with ([follow = true]) or
    without following a link in the last component. The empty path names
    nothing. *)
Definition locate (root : node) (follow : bool) (p : string)
    : option (list string * node) :=
  if String.eqb p "" then None
  else resolve MAXSYMLINKS root follow (path_components p).

(** The calls into the operating system that can fail for reasons outside
    the file-system tree (access denied, an object removed or replaced by
    another process between two calls). *)
Inductive oscall : Type :=
| CallExists | CallLexists | CallIsfile | CallIsdir | CallIslink
| CallGetsize | CallScandir | CallListdir | CallUnlink | CallRmdir.

(** What the access control list of a registry key grants the process. *)
Inductive key_access : Type := NoAccess | ReadOnly | FullAccess.

(** A registry key: its named values (string data) and its subkeys in
    enumeration order. *)
Inductive regkey : Type :=
| RegKey (access : key_access) (values : gmap string string)
         (subkeys : list (string * regkey)).

Inductive hive : Type := HKEY_CURRENT_USER | HKEY_LOCAL_MACHINE.

(** The state of the machine the program runs on. [fs_fault call p] is the
    failure, if any, of [call] on path [p]; [glob_magic] is the expansion of
    a pattern that has wildcards, which is not modelled further. *)
Record world : Type := World {
  fs_root : node;
  fs_fault : oscall -> string -> option errno;
  glob_magic : string -> result (list string);
  hkcu : regkey;
  hklm : regkey
}.

Section OS.
Variable w : world.

(** [os.stat] ([follow = true]) and [os.lstat], as made by [call]. *)
Definition stat_at (call : oscall) (follow : bool) (p : string)
    : result (list string * node) :=
  match fs_fault w call p with
  | Some e => Err (OSError e)
  | None =>
      match locate (fs_root w) follow p with
      | Some r => Ok r
      | None => Err (OSError ENOENT)
      end
  end.

(** [os.path.exists], [lexists], [isfile], [isdir], [islink]: a failing
    [stat] gives [False], never an exception. *)
Definition os_path_exists (p : string) : bool :=
  match stat_at CallExists true p with Ok _ => true | Err _ => false end.

Definition os_path_lexists (p : string) : bool :=
  match stat_at CallLexists false p with Ok _ => true | Err _ => false end.

Definition os_path_isfile (p : string) : bool :=
  match stat_at CallIsfile true p with Ok (_, File _) => true | _ => false end.

Definition os_path_isdir (p : string) : bool :=
  match stat_at CallIsdir true p with Ok (_, Dir _) => true | _ => false end.

Definition os_path_islink (p : string) : bool :=
  match stat_at CallIslink false p with Ok (_, Symlink _) => true | _ => false end.

(** [os.path.getsize]: [st_size] of the object the path leads to; a
    directory reports 0. *)
Definition os_path_getsize (p : string) : result Z :=
  match stat_at CallGetsize true p with
  | Ok (_, File n) => Ok (Z.of_N n)
  | Ok _ => Ok 0
  | Err e => Err e
  end.

(** [os.listdir]. *)
Definition os_listdir (p : string) : result (list string) :=
  match stat_at CallListdir true p with
  | Ok (_, Dir es) => Ok (map fst es)
  | Ok _ => Err (OSError ENOTDIR)
  | Err e => Err e
  end.

(** [DirEntry.is_dir()], which follows symbolic links. *)
Definition entry_is_dir (c : node) : bool :=
  match c with
  | Dir _ => true
  | File _ => false
  | Symlink t =>
      match locate (fs_root w) true t with
      | Some (_, Dir _) => true
      | _ => false
      end
  end.

Definition dirnames (es : list (string * node)) : list string :=
  map fst (filter (fun e => entry_is_dir (snd e) = true) es).

Definition nondirnames (es : list (string * node)) : list string :=
  map fst (filter (fun e => entry_is_dir (snd e) = false) es).

(** [os.walk(top, topdown=False)] below a directory: the triples of the
    subdirectories that are not symbolic links first, then the triple of
    [top]. A directory that cannot be listed yields nothing ([onerror] is
    [None]). *)
Fixpoint walk_node (top : string) (n : node) {struct n}
    : list (string * list string * list string) :=
  match n with
  | Dir es =>
      match fs_fault w CallScandir top with
      | Some _ => []
      | None =>
          flat_map (fun e =>
                      match snd e with
                      | Dir _ => walk_node (os_path_join top (fst e)) (snd e)
                      | _ => []
                      end) es
          ++ [(top, dirnames es, nondirnames es)]
      end
  | _ => []
  end.

Definition os_walk (top : string) : list (string * list string * list string) :=
  match locate (fs_root w) true top with
  | Some (_, n) => walk_node top n
  | None => []
  end.

(** [glob.has_magic]. *)
Definition has_magic (pattern : string) : bool :=
  (contains "*" pattern || contains "?" pattern || contains "[" pattern)%bool.

(** [glob.glob]: a pattern without wildcards matches itself when it
    exists. *)
Definition glob_glob (pattern : string) : result (list string) :=
  if has_magic pattern then glob_magic w pattern
  else Ok (if os_path_lexists pattern then [pattern] else []).

End OS.

(** ** The registry (the part of [winreg] the program uses) *)

Definition key_acl (k : regkey) : key_access :=
  match k with RegKey a _ _ => a end.
Definition key_values (k : regkey) : gmap string string :=
  match k with RegKey _ v _ => v end.
Definition key_subkeys (k : regkey) : list (string * regkey) :=
  match k with RegKey _ _ s => s end.

Fixpoint lookup_subkey (name : string) (ks : list (string * regkey)) : option regkey :=
  match ks with
  | [] => None
  | (n, k) :: ks' => if String.eqb n name then Some k else lookup_subkey name ks'
  end.

Fixpoint find_key (k : regkey) (comps : list string) : option regkey :=
  match comps with
  | [] => Some k
  | c :: cs =>
      match lookup_subkey c (key_subkeys k) with
      | Some k' => find_key k' cs
      | None => None
      end
  end.

Fixpoint replace_subkey (name : string) (k' : regkey) (ks : list (string * regkey))
    : list (string * regkey) :=
  match ks with
  | [] => []
  | (n, k) :: ks' =>
      if String.eqb n name then (n, k') :: ks' else (n, k) :: replace_subkey name k' ks'
  end.

(** Apply [f] to the key at [comps] below [k]. *)
Fixpoint update_key (comps : list string) (f : regkey -> regkey) (k : regkey) : regkey :=
  match comps with
  | [] => f k
  | c :: cs =>
      match lookup_subkey c (key_subkeys k) with
      | Some k' =>
          RegKey (key_acl k) (key_values k)
                 (replace_subkey c (update_key cs f k') (key_subkeys k))
      | None => k
      end
  end.

(** An open key handle: the hive and the components of the key below it. *)
Record hkey : Type := HKey { hk_hive : hive; hk_path : list string }.

Definition HKCU : hkey := HKey HKEY_CURRENT_USER [].
Definition HKLM : hkey := HKey HKEY_LOCAL_MACHINE [].

Inductive regsam : Type := KEY_READ | KEY_ALL_ACCESS.

Definition grants (a : key_access) (sam : regsam) : bool :=
  match a, sam with
  | FullAccess, _ => true
  | ReadOnly, KEY_READ => true
  | _, _ => false
  end.

Definition hive_root (w : world) (h : hive) : regkey :=
  match h with
  | HKEY_CURRENT_USER => hkcu w
  | HKEY_LOCAL_MACHINE => hklm w
  end.

Definition set_hive_root (w : world) (h : hive) (k : regkey) : world :=
  match h with
  | HKEY_CURRENT_USER => World (fs_root w) (fs_fault w) (glob_magic w) k (hklm w)
  | HKEY_LOCAL_MACHINE => World (fs_root w) (fs_fault w) (glob_magic w) (hkcu w) k
  end.

Section Winreg.
Variable w : world.

Definition key_of (key : hkey) : result regkey :=
  match find_key (hive_root w (hk_hive key)) (hk_path key) with
  | Some k => Ok k
  | None => Err (OSError ENOENT)
  end.

(** [winreg.OpenKey(key, sub_key, 0, sam)]. *)
Definition OpenKey (key : hkey) (sub_key : string) (sam : regsam) : result hkey :=
  let opened := HKey (hk_hive key) (hk_path key ++ key_components sub_key) in
  match key_of opened with
  | Ok k => if grants (key_acl k) sam then Ok opened else Err (OSError EACCES)
  | Err e => Err e
  end.

(** [winreg.QueryInfoKey(key)[0]]: the number of subkeys. *)
Definition QueryInfoKey_subkeys (key : hkey) : result nat :=
  match key_of key with
  | Ok k => Ok (length (key_subkeys k))
  | Err e => Err e
  end.

(** [winreg.EnumKey(key, i)]. *)
Definition EnumKey (key : hkey) (i : nat) : result string :=
  match key_of key with
  | Ok k =>
      match key_subkeys k !! i with
      | Some (name, _) => Ok name
      | None => Err (OSError ENODATA)
      end
  | Err e => Err e
  end.

(** [winreg.QueryValueEx(key, value_name)[0]]. *)
Definition QueryValueEx (key : hkey) (value_name : string) : result string :=
  match key_of key with
  | Ok k =>
      match key_values k !! value_name with
      | Some data => Ok data
      | None => Err (OSError ENOENT)
      end
  | Err e => Err e
  end.

End Winreg.

Definition set_values (v : gmap string string) (k : regkey) : regkey :=
  RegKey (key_acl k) v (key_subkeys k).

Definition update_values (key : hkey) (f : gmap string string -> gmap string string)
    (w : world) : world :=
  set_hive_root w (hk_hive key)
    (update_key (hk_path key) (fun k => set_values (f (key_values k)) k)
                (hive_root w (hk_hive key))).

(** [winreg.DeleteValue(key, value)]. *)
Definition DeleteValue (key : hkey) (value : string) : Py.M world unit :=
  fun w =>
    match QueryValueEx w key value with
    | Ok _ => (Ok tt, update_values key (delete value) w)
    | Err e => (Err e, w)
    end.

(** [winreg.SetValueEx(key, value_name, 0, winreg.REG_SZ, data)]. *)
Definition SetValueEx (key : hkey) (value_name data : string) : Py.M world unit :=
  fun w =>
    match key_of w key with
    | Ok _ => (Ok tt, update_values key (insert value_name data) w)
    | Err e => (Err e, w)
    end.

(** ** SystemScanner *)

Section Scanner.
Variable w : world.

Definition add_size (sz : Z) (locals : Z * Z) : Z * Z := (fst locals + sz, snd locals).
Definition add_count (n : Z) (locals : Z * Z) : Z * Z := (fst locals, snd locals + n).

(** [scan_directory_safely]; the locals are [(total_size, file_count)]. *)
Definition scan_directory_safely (directory_path : string) : result (Z * Z) :=
  Py.run (0, 0)
    (Py.try_except
       (if negb (os_path_exists w directory_path) then Py.ret (0, 0)
        else if os_path_isfile w directory_path then
          let* sz := Py.lift (os_path_getsize w directory_path) in Py.ret (sz, 1)
        else
          Py.for_ (os_walk w directory_path) (fun '(root, _, files) =>
            Py.for_ files (fun file =>
              Py.try_except
                (let file_path := os_path_join root file in
                 if (os_path_exists w file_path && negb (os_path_islink w file_path))%bool
                 then
                   let* sz := Py.lift (os_path_getsize w file_path) in
                   Py.modify (add_size sz) ;;
                   Py.modify (add_count 1)
                 else Py.ret tt)
                is_OSError (fun _ => Py.ret tt))) ;;
          Py.get)
       is_OSError (fun _ => Py.get)).

(** [scan_firefox_cache]. *)
Definition scan_firefox_cache (firefox_profiles_dir : string) : result (Z * Z) :=
  Py.run (0, 0)
    (Py.try_except
       (if os_path_exists w firefox_profiles_dir then
          let* profiles := Py.lift (os_listdir w firefox_profiles_dir) in
          Py.for_ profiles (fun profile =>
            let cache_dir :=
              os_path_join (os_path_join firefox_profiles_dir profile) "cache2" in
            if os_path_isdir w cache_dir then
              let* (size, count) := Py.lift (scan_directory_safely cache_dir) in
              Py.modify (add_size size) ;;
              Py.modify (add_count count)
            else Py.ret tt)
        else Py.ret tt)
       is_OSError (fun _ => Py.ret tt) ;;
     Py.get).

Definition is_firefox_profiles (path_pattern : string) : bool :=
  (contains "Firefox\Profiles" path_pattern
   || contains "Firefox/Profiles" path_pattern)%bool.

(** [scan_location_size]. *)
Definition scan_location_size (location_paths : list string) : result (Z * Z) :=
  Py.run (0, 0)
    (Py.for_ location_paths (fun path_pattern =>
       if String.eqb path_pattern "REGISTRY_CLEANUP" then
         Py.modify (add_count 1) ;;
         Py.modify (add_size 1024)
       else if is_firefox_profiles path_pattern then
         let* (size, count) := Py.lift (scan_firefox_cache path_pattern) in
         Py.modify (add_size size) ;;
         Py.modify (add_count count)
       else
         let* paths := Py.lift (glob_glob w path_pattern) in
         Py.for_ paths (fun path =>
           let* (size, count) := Py.lift (scan_directory_safely path) in
           Py.modify (add_size size) ;;
           Py.modify (add_count count))) ;;
     Py.get).





(** An installed application: the dictionary with keys [name] and
    [command]. *)
Record app : Type := App { name : string; command : string }.

Definition truthy (s : string) : bool := negb (String.eqb s "").

Fixpoint insert_by_name (a : app) (l : list app) : list app :=
  match l with
  | [] => [a]
  | b :: l' =>
      if String.leb (name a) (name b) then a :: b :: l'
      else b :: insert_by_name a l'
  end.

(** [sorted(l, key=lambda x: x['name'])]: the stable sort by name, strings
    compared character by character. *)
Fixpoint sorted_by_name (l : list app) : list app :=
  match l with
  | [] => []
  | a :: l' => insert_by_name a (sorted_by_name l')
  end.

Definition uninstall_key : string :=
  "Software\Microsoft\Windows\CurrentVersion\Uninstall".

(** [get_installed_apps]; the local is [installed_apps]. *)
Definition get_installed_apps : result (list app) :=
  Py.run []
    (Py.for_ [HKCU; HKLM] (fun hkey =>
       Py.try_except
         (let* key := Py.lift (OpenKey w hkey uninstall_key KEY_READ) in
          let* n := Py.lift (QueryInfoKey_subkeys w key) in
          Py.for_ (seq 0 n) (fun i =>
            Py.try_except
              (let* subkey_name := Py.lift (EnumKey w key i) in
               let* subkey := Py.lift (OpenKey w key subkey_name KEY_READ) in
               let* display_name := Py.lift (QueryValueEx w subkey "DisplayName") in
               let* uninstall_string :=
                 Py.lift (QueryValueEx w subkey "UninstallString") in
               if (truthy display_name && truthy uninstall_string)%bool
               then Py.modify (fun installed_apps =>
                                 installed_apps ++ [App display_name uninstall_string])
               else Py.ret tt)
              is_OSError (fun _ => Py.ret tt)))
         is_FileNotFoundError (fun _ => Py.ret tt)) ;;
     let* installed_apps := Py.get in
     Py.ret (sorted_by_name installed_apps)).

End Scanner.

(** ** Deletion *)

Fixpoint remove_entry (name : string) (es : list (string * node)) : list (string * node) :=
  match es with
  | [] => []
  | (n, c) :: es' =>
      if String.eqb n name then es' else (n, c) :: remove_entry name es'
  end.

Fixpoint replace_entry (name : string) (c' : node) (es : list (string * node))
    : list (string * node) :=
  match es with
  | [] => []
  | (n, c) :: es' =>
      if String.eqb n name then (n, c') :: es' else (n, c) :: replace_entry name c' es'
  end.

(** Put [o] in the place of the object at the link-free components [cs]
    below [n]: [Some c] replaces it, [None] removes its entry. *)
Fixpoint put_at (cs : list string) (o : option node) (n : node) : node :=
  match cs with
  | [] => match o with Some c => c | None => n end
  | c :: cs' =>
      match n with
      | Dir es =>
          match lookup_entry c es with
          | None => n
          | Some x =>
              match cs', o with
              | [], None => Dir (remove_entry c es)
              | _, _ => Dir (replace_entry c (put_at cs' o x) es)
              end
          end
      | _ => n
      end
  end.

Definition set_fs_root (w : world) (r : node) : world :=
  World r (fs_fault w) (glob_magic w) (hkcu w) (hklm w).

(** [os.remove(path)]: unlinks a file or a symbolic link. *)
Definition os_remove (path : string) : Py.M world unit :=
  fun w =>
    match stat_at w CallUnlink false path with
    | Ok (here, Dir _) => (Err (OSError EACCES), w)
    | Ok (here, _) => (Ok tt, set_fs_root w (put_at here None (fs_root w)))
    | Err e => (Err e, w)
    end.

(** What [shutil._rmtree_unsafe(path, onerror)] leaves of the directory [n]
    at [path] when every error is ignored: an entry whose [unlink] fails
    stays, a directory that cannot be listed keeps its entries, and a
    directory is removed when it is empty and [rmdir] succeeds. [None] is a
    directory that is gone. *)
Fixpoint rmtree_node (w : world) (path : string) (n : node) {struct n} : option node :=
  match n with
  | Dir es =>
      let left :=
        match fs_fault w CallScandir path with
        | Some _ => es
        | None =>
            (fix each (l : list (string * node)) : list (string * node) :=
               match l with
               | [] => []
               | (entry, c) :: l' =>
                   let fullname := os_path_join path entry in
                   match c with
                   | Dir _ =>
                       match rmtree_node w fullname c with
                       | Some c' => (entry, c') :: each l'
                       | None => each l'
                       end
                   | _ =>
                       match fs_fault w CallUnlink fullname with
                       | Some _ => (entry, c) :: each l'
                       | None => each l'
                       end
                   end
               end) es
        end in
      match left, fs_fault w CallRmdir path with
      | [], None => None
      | _, _ => Some (Dir left)
      end
  | _ => Some n
  end.

(** [shutil.rmtree(path, ignore_errors=True)]: refuses a symbolic link, and
    never raises. *)
Definition shutil_rmtree (path : string) : Py.M world unit :=
  fun w =>
    if os_path_islink w path then (Ok tt, w)
    else match stat_at w CallScandir false path with
         | Ok (here, Dir es) =>
             (Ok tt, set_fs_root w (put_at here (rmtree_node w path (Dir es)) (fs_root w)))
         | _ => (Ok tt, w)
         end.

(** ** SystemCleaner *)

(** The moments of [clean_directory_safely] between its two measurements at
    which other processes may change the machine. *)
Inductive moment : Type := BeforeDeletion | AfterDeletion.

Module Locals.
(** A function body that changes the machine and has locals of type [L]. *)
Definition world_of {L} (s : world * L) : world := fst s.

Definition on_world {L A} (m : Py.M world A) : Py.M (world * L) A :=
  fun s => let (r, w') := m (fst s) in (r, (w', snd s)).

Definition get {L} : Py.M (world * L) L := fun s => (Ok (snd s), s).

Definition modify {L} (f : L -> L) : Py.M (world * L) unit :=
  fun s => (Ok tt, (fst s, f (snd s))).

Definition with_locals {L A} (init : L) (m : Py.M (world * L) A) : Py.M world A :=
  fun w => let (r, s') := m (w, init) in (r, fst s').
End Locals.

Section Cleaner.
(** What the other processes do to the machine at each moment. *)
Variable others : moment -> world -> world.

(** [clean_directory_safely]. *)
Definition clean_directory_safely (path : string) : Py.M world (Z * Z) :=
  let* w := Py.get in
  if negb (os_path_exists w path) then Py.ret (0, 0) else
  let* (initial_size, initial_count) := Py.lift (scan_directory_safely w path) in
  if Z.eqb initial_count 0 then Py.ret (0, 0) else
  Py.modify (others BeforeDeletion) ;;
  Py.try_except
    (let* w := Py.get in
     if os_path_isfile w path then os_remove path
     else if os_path_isdir w path then shutil_rmtree path
     else Py.ret tt)
    is_Exception (fun _ => Py.ret tt) ;;
  Py.modify (others AfterDeletion) ;;
  let* w := Py.get in
  let* (final_size, final_count) := Py.lift (scan_directory_safely w path) in
  Py.ret (Z.max 0 (initial_count - final_count), Z.max 0 (initial_size - final_size)).

Definition add_pair (d f : Z) (locals : Z * Z) : Z * Z :=
  (fst locals + d, snd locals + f).

(** [clean_firefox_cache]; the locals are [(total_deleted, total_freed)]. *)
Definition clean_firefox_cache (firefox_profiles_dir : string) : Py.M world (Z * Z) :=
  Locals.with_locals (0, 0)
    (Py.try_except
       (let* w := Locals.on_world Py.get in
        if os_path_exists w firefox_profiles_dir then
          let* profiles := Py.lift (os_listdir w firefox_profiles_dir) in
          Py.for_ profiles (fun profile =>
            let cache_dir :=
              os_path_join (os_path_join firefox_profiles_dir profile) "cache2" in
            let* w := Locals.on_world Py.get in
            if os_path_isdir w cache_dir then
              let* (deleted, freed) :=
                Locals.on_world (clean_directory_safely cache_dir) in
              Locals.modify (add_pair deleted freed)
            else Py.ret tt)
        else Py.ret tt)
       is_OSError (fun _ => Py.ret tt) ;;
     Locals.get).

Definition run_mru_key : string :=
  "Software\Microsoft\Windows\CurrentVersion\Explorer\RunMRU".

(** [list(s)]: the characters of a string, each as a string. *)
Definition chars (s : string) : list string :=
  map (fun c => String c EmptyString) (list_ascii_of_string s).

(** [clear_run_history]. *)
Definition clear_run_history : Py.M world (Z * Z) :=
  Py.try_except
    (let* w := Py.get in
     let* key := Py.lift (OpenKey w HKCU run_mru_key KEY_ALL_ACCESS) in
     let* mrulist := Py.lift (QueryValueEx w key "MRUList") in
     Py.for_ (chars mrulist) (fun value_name =>
       Py.try_except (DeleteValue key value_name)
         is_FileNotFoundError (fun _ => Py.ret tt)) ;;
     SetValueEx key "MRUList" "" ;;
     Py.ret (1, 1024))
    is_Exception (fun _ => Py.ret (0, 0)).

(** [clean_location]; the locals are [(files_deleted, bytes_freed)], and
    [(deleted, freed)] in the loop over the matches of a pattern. *)
Definition clean_location (location_paths : list string) : Py.M world (Z * Z) :=
  Locals.with_locals (0, 0)
    (Py.for_ location_paths (fun path_pattern =>
       let* (deleted, freed) :=
         if String.eqb path_pattern "REGISTRY_CLEANUP" then
           Locals.on_world clear_run_history
         else if is_firefox_profiles path_pattern then
           Locals.on_world (clean_firefox_cache path_pattern)
         else
           let* w := Locals.on_world Py.get in
           let* paths := Py.lift (glob_glob w path_pattern) in
           Locals.on_world
             (Locals.with_locals (0, 0)
                (Py.for_ paths (fun path =>
                   let* (d, f) := Locals.on_world (clean_directory_safely path) in
                   Locals.modify (add_pair d f)) ;;
                 Locals.get)) in
       Locals.modify (add_pair deleted freed)) ;;
     Locals.get).

End Cleaner.

(** ** SysCleanXApp: the two workers *)

(** The call a worker schedules on the user-interface thread with
    [self.root.after(0, ...)]. *)
Inductive ui_call : Type :=
| scan_complete
| scan_error (error : exn)
| clean_complete (files_cleaned bytes_freed : Z)
| clean_error (error : exn).

Section App.
(** The dictionary [temp_locations] of the scanner, in insertion order. *)
Variable temp_locations : list (string * list string).
(** [update_status]: it hands the text to the user-interface thread, which
    may refuse it. *)
Variable update_status : string -> result unit.
Variable others : moment -> world -> world.


(** [self.scanner.temp_locations[item]]. *)
Fixpoint getitem (d : list (string * list string)) (item : string)
    : result (list string) :=
  match d with
  | [] => Err KeyError
  | (k, v) :: d' => if String.eqb k item then Ok v else getitem d' item
  end.

(** [clean_thread]; the locals are [(cleaned_files, bytes_freed)]. *)
Definition clean_thread (selected_items : list string) : Py.M world ui_call :=
  Locals.with_locals (0, 0)
    (Py.try_except
       (Py.for_ selected_items (fun item =>
          Py.lift (update_status ("Cleaning: " +:+ item)) ;;
          let* paths := Py.lift (getitem temp_locations item) in
          let* (files_deleted, bytes_deleted) :=
            Locals.on_world (clean_location others paths) in
          Locals.modify (add_pair files_deleted bytes_deleted)) ;;
        let* (cleaned_files, bytes_freed) := Locals.get in
        Py.ret (clean_complete cleaned_files bytes_freed))
       is_Exception (fun e => Py.ret (clean_error e))).

End App.

(** * Reference definitions and example machines *)

Definition pair_add (x y : Z * Z) : Z * Z := (fst x + fst y, snd x + snd y).

(** A statement that only adds to the two accumulators, by amounts that do
    not depend on them, whether it ends normally or raises. *)
Definition adds (m : Py.M (Z * Z) unit) : Prop :=
  forall s, m s = (fst (m (0, 0)), pair_add s (snd (m (0, 0)))).

(** What one name listed by [os.walk] adds to the accumulators: its size
    and one file when it exists, is not a symbolic link and its size can be
    read; nothing otherwise. *)
Definition file_contribution (w : world) (root file : string) : Z * Z :=
  let file_path := os_path_join root file in
  if (os_path_exists w file_path && negb (os_path_islink w file_path))%bool
  then match os_path_getsize w file_path with
       | Ok sz => (sz, 1)
       | Err _ => (0, 0)
       end
  else (0, 0).

Definition files_total (w : world) (root : string) (files : list string) : Z * Z :=
  foldr (fun file acc => pair_add (file_contribution w root file) acc) (0, 0) files.

Definition walk_total (w : world) (triples : list (string * list string * list string)) : Z * Z :=
  foldr (fun t acc => pair_add (files_total w (fst (fst t)) (snd t)) acc) (0, 0) triples.

(** The measurement as a function of the machine: no exception is left. *)
Definition measure (w : world) (p : string) : Z * Z :=
  if negb (os_path_exists w p) then (0, 0)
  else if os_path_isfile w p then
    match os_path_getsize w p with
    | Ok sz => (sz, 1)
    | Err _ => (0, 0)
    end
  else walk_total w (os_walk w p).

(** The deletion step of [clean_directory_safely], on its own. *)
Definition attempt_deletion (path : string) : Py.M world unit :=
  Py.try_except
    (let* w := Py.get in
     if os_path_isfile w path then os_remove path
     else if os_path_isdir w path then shutil_rmtree path
     else Py.ret tt)
    is_Exception (fun _ => Py.ret tt).

(** The machine at the second measurement, when there is one. *)
Definition world_at_remeasure (others : moment -> world -> world)
    (path : string) (w : world) : world :=
  others AfterDeletion (snd (attempt_deletion path (others BeforeDeletion w))).

Definition no_registry : regkey := RegKey FullAccess ∅ [].

(** A machine on which no call fails and no pattern with wildcards matches. *)
Definition quiet (root : node) : world :=
  World root (fun _ _ => None) (fun _ => Ok []) no_registry no_registry.

(** No other process runs. *)
Definition idle : moment -> world -> world := fun _ w => w.

(** A directory that holds only symbolic links, next to their targets. *)
Definition links_only : node :=
  Dir [("C:", Dir [("data", Dir [("a.txt", File 10); ("b.txt", File 20)]);
                   ("links", Dir [("a", Symlink "C:\data\a.txt");
                                  ("b", Symlink "C:\data\b.txt");
                                  ("gone", Symlink "C:\data\c.txt")])])].

(** No call fails on this machine. *)
Definition no_faults (w : world) : Prop :=
  forall call p, fs_fault w call p = None.

(** The body of the loop of [scan_location_size]. *)
Definition scan_pattern (w : world) (path_pattern : string) : Py.M (Z * Z) unit :=
  if String.eqb path_pattern "REGISTRY_CLEANUP" then
    Py.modify (add_count 1) ;;
    Py.modify (add_size 1024)
  else if is_firefox_profiles path_pattern then
    let* (size, count) := Py.lift (scan_firefox_cache w path_pattern) in
    Py.modify (add_size size) ;;
    Py.modify (add_count count)
  else
    let* paths := Py.lift (glob_glob w path_pattern) in
    Py.for_ paths (fun path =>
      let* (size, count) := Py.lift (scan_directory_safely w path) in
      Py.modify (add_size size) ;;
      Py.modify (add_count count)).











(** A directory with three regular files (5, 7 and 30 bytes, one of them
    in a subdirectory) and three symbolic links: to a file, to a directory
    that holds a file, and to nothing. *)
Definition mixed : node :=
  Dir [("C:", Dir [("data", Dir [("a.txt", File 10); ("b.txt", File 20)]);
                   ("mixed", Dir [("one", File 5);
                                  ("to_file", Symlink "C:\data\a.txt");
                                  ("sub", Dir [("deep", File 30)]);
                                  ("to_dir", Symlink "C:\data");
                                  ("two", File 7);
                                  ("to_nothing", Symlink "C:\data\none")])])].

(** What one child of the profile root adds: the measurement of its
    [cache2] subdirectory, when there is one. *)
Definition cache_measure (w : world) (root profile : string) : Z * Z :=
  let cache_dir := os_path_join (os_path_join root profile) "cache2" in
  if os_path_isdir w cache_dir then measure w cache_dir else (0, 0).

Definition profiles_total (w : world) (root : string) : Z * Z :=
  if os_path_exists w root then
    match os_listdir w root with
    | Ok profiles =>
        foldr (fun profile acc => pair_add (cache_measure w root profile) acc)
              (0, 0) profiles
    | Err _ => (0, 0)
    end
  else (0, 0).

Definition profiles_root : string :=
  "C:\Users\me\AppData\Local\Mozilla\Firefox\Profiles".

(** Three profiles, each with a [cache2] that holds a file of 10 bytes and
    a file of 20 bytes. *)
Definition three_profiles : node :=
  let profile := Dir [("cache2", Dir [("entry1", File 10); ("entry2", File 20)])] in
  Dir [("C:", Dir [("Users", Dir [("me", Dir [("AppData", Dir [("Local", Dir
    [("Mozilla", Dir [("Firefox", Dir [("Profiles", Dir
       [("abc.default", profile);
        ("def.release", profile);
        ("ghi.dev", profile)])])])])])])])])].


Definition run_mru_node (w : world) : option regkey :=
  find_key (hkcu w) (key_components run_mru_key).


(** A registry in which [k] is the key at [path]. *)
Definition key_at (path : list string) (k : regkey) : regkey :=
  foldr (fun name below => RegKey FullAccess ∅ [(name, below)]) k path.

(** A run history of four commands. *)
Definition four_commands : regkey :=
  key_at (key_components run_mru_key)
    (RegKey FullAccess
       (list_to_map [("MRUList", "dbca"); ("a", "cmd\1"); ("b", "notepad\1");
                     ("c", "regedit\1"); ("d", "calc\1")])
       []).

Definition with_hkcu (k : regkey) : world :=
  World (Dir []) (fun _ _ => None) (fun _ => Ok []) k no_registry.


(** The application a subkey describes, when it can be opened and has both
    values, neither of them empty. *)
Definition app_of_subkey (w : world) (key : hkey) (subkey_name : string) : option app :=
  match OpenKey w key subkey_name KEY_READ with
  | Ok subkey =>
      match QueryValueEx w subkey "DisplayName",
            QueryValueEx w subkey "UninstallString" with
      | Ok display_name, Ok uninstall_string =>
          if (truthy display_name && truthy uninstall_string)%bool
          then Some (App display_name uninstall_string)
          else None
      | _, _ => None
      end
  | Err _ => None
  end.

(** The applications below one root, in the order of its subkeys; none
    when the [Uninstall] key is not there. *)
Definition apps_under (w : world) (root : hkey) : list app :=
  match OpenKey w root uninstall_key KEY_READ with
  | Ok key =>
      match key_of w key with
      | Ok k => omap (app_of_subkey w key) (map fst (key_subkeys k))
      | Err _ => []
      end
  | Err _ => []
  end.

(** The [Uninstall] key of the root is absent, or the process may read
    it. *)
Definition readable_or_absent (w : world) (root : hkey) : Prop :=
  OpenKey w root uninstall_key KEY_READ <> Err (OSError EACCES).

(** One turn of the inner loop of [get_installed_apps]. *)
Definition read_subkey (w : world) (key : hkey) (i : nat) : Py.M (list app) unit :=
  Py.try_except
    (let* subkey_name := Py.lift (EnumKey w key i) in
     let* subkey := Py.lift (OpenKey w key subkey_name KEY_READ) in
     let* display_name := Py.lift (QueryValueEx w subkey "DisplayName") in
     let* uninstall_string := Py.lift (QueryValueEx w subkey "UninstallString") in
     if (truthy display_name && truthy uninstall_string)%bool
     then Py.modify (fun installed_apps =>
                       installed_apps ++ [App display_name uninstall_string])
     else Py.ret tt)
    is_OSError (fun _ => Py.ret tt).

(** The [Uninstall] key of a root, with the given subkeys. *)
Definition uninstall_with (subkeys : list (string * regkey)) : regkey :=
  key_at (key_components uninstall_key) (RegKey ReadOnly ∅ subkeys).

Definition app_key (values : list (string * string)) : regkey :=
  RegKey ReadOnly (list_to_map values) [].




Definition glob_rejects_null (pattern : string) : result (list string) :=
  if contains (String "000"%char "") pattern then Err ValueError else Ok [].

Definition null_world : world :=
  World (Dir []) (fun _ _ => None) glob_rejects_null four_commands no_registry.


Definition status_shown : string -> result unit := fun _ => Ok tt.

(** ** The catalog, whole lists and the frame of a deletion *)

(** Both fields are non-negative, and no bytes come without a file. *)
Definition sound_total (r : Z * Z) : Prop :=
  0 <= fst r /\ 0 <= snd r /\ (snd r = 0 -> fst r = 0).

(** What [clean_location] does for one entry of its list: the pair it adds
    to its totals, and the change of the machine. *)
Definition clean_pattern (others : moment -> world -> world)
    (path_pattern : string) : Py.M world (Z * Z) :=
  if String.eqb path_pattern "REGISTRY_CLEANUP" then clear_run_history
  else if is_firefox_profiles path_pattern then
    clean_firefox_cache others path_pattern
  else
    let* w := Py.get in
    let* paths := Py.lift (glob_glob w path_pattern) in
    Locals.with_locals (0, 0)
      (Py.for_ paths (fun path =>
         let* (d, f) := Locals.on_world (clean_directory_safely others path) in
         Locals.modify (add_pair d f)) ;;
       Locals.get).

(** Both fields of a clean result are non-negative. *)
Definition nonneg (r : Z * Z) : Prop := 0 <= fst r /\ 0 <= snd r.

(** The body of the loop of [clean_location]. *)
Definition clean_entry (others : moment -> world -> world) (path_pattern : string)
    : Py.M (world * (Z * Z)) unit :=
  let* (deleted, freed) :=
    if String.eqb path_pattern "REGISTRY_CLEANUP" then
      Locals.on_world clear_run_history
    else if is_firefox_profiles path_pattern then
      Locals.on_world (clean_firefox_cache others path_pattern)
    else
      let* w := Locals.on_world Py.get in
      let* paths := Py.lift (glob_glob w path_pattern) in
      Locals.on_world
        (Locals.with_locals (0, 0)
           (Py.for_ paths (fun path =>
              let* (d, f) := Locals.on_world (clean_directory_safely others path) in
              Locals.modify (add_pair d f)) ;;
            Locals.get)) in
  Locals.modify (add_pair deleted freed).


(** A root whose [Uninstall] key exists but may not be read, above a
    [Uninstall] key with one application. *)
Definition locked_root : world :=
  World (Dir []) (fun _ _ => None) (fun _ => Ok [])
    (uninstall_with
       [("Zip", app_key [("DisplayName", "Zip"); ("UninstallString", "zip-remove")])])
    (key_at (key_components uninstall_key) (RegKey NoAccess ∅ [])).

(** [os.environ.get(key, '')]. *)
Definition environ_get (environ : gmap string string) (key : string) : string :=
  default "" (environ !! key).

(** [os.path.join(a, name1, name2, ...)]. *)
Definition join_all (a : string) (names : list string) : string :=
  foldl os_path_join a names.

(** [SystemScanner.__init__]: the dictionary [temp_locations], in insertion
    order, for the environment of the process. *)
Definition temp_locations (environ : gmap string string)
    : list (string * list string) :=
  let env := environ_get environ in
  [("Clean User's Temp",
    [env "TEMP";
     join_all (env "USERPROFILE") ["AppData"; "Local"; "Temp"]]);
   ("Clean Recent Items",
    [join_all (env "USERPROFILE") ["Recent"];
     join_all (env "APPDATA") ["Microsoft"; "Windows"; "Recent"]]);
   ("Clear Internet Cache",
    [join_all (env "LOCALAPPDATA") ["Google"; "Chrome"; "User Data"; "Default"; "Cache"];
     join_all (env "LOCALAPPDATA") ["Microsoft"; "Edge"; "User Data"; "Default"; "Cache"];
     join_all (env "LOCALAPPDATA") ["Mozilla"; "Firefox"; "Profiles"];
     join_all (env "USERPROFILE")
       ["AppData"; "Local"; "Microsoft"; "Windows"; "INetCache"];
     join_all (env "APPDATA") ["Opera Software"; "Opera Stable"; "Cache"];
     join_all (env "LOCALAPPDATA")
       ["BraveSoftware"; "Brave-Browser"; "User Data"; "Default"; "Cache"];
     join_all (env "LOCALAPPDATA") ["Vivaldi"; "User Data"; "Default"; "Cache"]]);
   ("Clear Desktop Run History", ["REGISTRY_CLEANUP"]);
   ("Clean Prefetch", ["C:\Windows\Prefetch"]);
   ("Clear Recycle Bin", ["C:\$Recycle.Bin"]);
   ("Clean Windows Temp", ["C:\Windows\Temp"]);
   ("Clear Drivers Cache",
    ["C:\Windows\System32\DriverStore\Temp";
     "C:\Windows\Temp\DriverStore";
     "C:\ProgramData\NVIDIA Corporation\Downloader"]);
   ("Clean Windows Update Cache", ["C:\Windows\SoftwareDistribution\Download"]);
   ("Clean Thumbnail Cache",
    [join_all (env "LOCALAPPDATA")
       ["Microsoft"; "Windows"; "Explorer"; "thumbcache_*.db"]]);
   ("Clean Application Caches",
    [join_all (env "APPDATA") ["discord"; "Cache"];
     join_all (env "APPDATA") ["discord"; "Code Cache"];
     "C:\Program Files (x86)\Steam\appcache"]);
   ("Clean Memory Dumps", ["C:\Windows\Minump"; "C:\Windows\MEMORY.DMP"])].

(** The entry of the catalog for the Firefox profiles. *)
Definition firefox_entry (environ : gmap string string) : string :=
  join_all (environ_get environ "LOCALAPPDATA") ["Mozilla"; "Firefox"; "Profiles"].

(** An environment, and a machine with a temporary directory, a Firefox
    profile and a run history. *)
Definition sample_environ : gmap string string :=
  list_to_map [("TEMP", "C:\Users\me\AppData\Local\Temp");
               ("USERPROFILE", "C:\Users\me");
               ("APPDATA", "C:\Users\me\AppData\Roaming");
               ("LOCALAPPDATA", "C:\Users\me\AppData\Local")].

Definition sample_machine : world :=
  World
    (Dir [("C:", Dir [("Users", Dir [("me", Dir [("AppData", Dir [("Local", Dir
       [("Temp", Dir [("t1.tmp", File 100); ("t2.tmp", File 50)]);
        ("Mozilla", Dir [("Firefox", Dir [("Profiles", Dir
           [("abc.default", Dir [("cache2", Dir [("entry", File 7)])])])])])])])])])])])
    (fun _ _ => None) (fun _ => Ok []) four_commands no_registry.

(** Two machines that differ at most in the registry hive of the current
    user. *)
Definition same_outside_hkcu (w w' : world) : Prop :=
  fs_root w' = fs_root w /\ fs_fault w' = fs_fault w
  /\ glob_magic w' = glob_magic w /\ hklm w' = hklm w.

(** A computation that changes at most the hive of the current user. *)
Definition keeps_outside_hkcu {A} (m : Py.M world A) : Prop :=
  forall w, same_outside_hkcu w (snd (m w)).



(** An entry of a catalog that is a plain path: not the registry sentinel,
    not a Firefox profile root, no wildcard. *)
Definition plain_entry (p : string) : bool :=
  (negb (String.eqb p "REGISTRY_CLEANUP") && negb (is_firefox_profiles p)
   && negb (has_magic p))%bool.


(** * Properties *)

(** ** Loops over accumulators *)

Lemma for_app {S A} (body : A -> Py.M S unit) (l1 l2 : list A) (s : S) :
  Py.for_ (l1 ++ l2) body s =
  match Py.for_ l1 body s with
  | (Ok _, s') => Py.for_ l2 body s'
  | (Err e, s') => (Err e, s')
  end.
Proof.
  revert s. induction l1 as [|x l1 IH]; intros s; [reflexivity|].
  simpl. unfold Py.bind. destruct (body x s) as [[[]|e] s']; [apply IH|reflexivity].
Qed.

Lemma pair_add_assoc x y z : pair_add (pair_add x y) z = pair_add x (pair_add y z).
Proof. unfold pair_add; simpl; f_equal; lia. Qed.

Lemma pair_add_0_l x : pair_add (0, 0) x = x.
Proof. destruct x; reflexivity. Qed.

Lemma pair_add_0_r x : pair_add x (0, 0) = x.
Proof. destruct x; unfold pair_add; simpl; f_equal; lia. Qed.

Lemma adds_ret : adds (Py.ret tt).
Proof. intros s. unfold Py.ret; simpl. by rewrite pair_add_0_r. Qed.

Lemma adds_lift_bind {A} (r : result A) (k : A -> Py.M (Z * Z) unit) :
  (forall a, adds (k a)) -> adds (let* a := Py.lift r in k a).
Proof.
  intros Hk s. unfold Py.bind, Py.lift. destruct r as [a|e]; simpl.
  - apply Hk.
  - by rewrite pair_add_0_r.
Qed.

Lemma adds_size_count (sz n : Z) :
  adds (Py.modify (add_size sz) ;; Py.modify (add_count n)).
Proof.
  intros [a b]. unfold Py.bind, Py.modify, add_size, add_count, pair_add; simpl.
  do 2 f_equal; lia.
Qed.

Lemma adds_count_size (sz n : Z) :
  adds (Py.modify (add_count n) ;; Py.modify (add_size sz)).
Proof.
  intros [a b]. unfold Py.bind, Py.modify, add_size, add_count, pair_add; simpl.
  do 2 f_equal; lia.
Qed.

Lemma adds_for {A} (body : A -> Py.M (Z * Z) unit) (l : list A) :
  (forall x, adds (body x)) -> adds (Py.for_ l body).
Proof.
  intros Hb. induction l as [|x l IH]; [apply adds_ret|].
  intros s. simpl. unfold Py.bind.
  destruct (body x (0, 0)) as [r d] eqn:E0. rewrite (Hb x s), E0. simpl.
  destruct r as [[]|e]; [|reflexivity].
  rewrite (IH (pair_add s d)), (IH d). simpl. by rewrite pair_add_assoc.
Qed.

(** ** What [scan_directory_safely] computes *)

Section Measure.
Variable w : world.

Lemma stat_at_OSError call follow p e :
  stat_at w call follow p = Err e -> is_OSError e = true.
Proof.
  unfold stat_at. intros H.
  destruct (fs_fault w call p); [by inversion H|].
  destruct (locate _ _ _); by inversion H.
Qed.

Lemma getsize_OSError p e : os_path_getsize w p = Err e -> is_OSError e = true.
Proof.
  unfold os_path_getsize. destruct (stat_at w CallGetsize true p) as [[h n]|e'] eqn:E.
  - destruct n; discriminate.
  - intros [= <-]. eapply stat_at_OSError, E.
Qed.

Lemma listdir_OSError p e : os_listdir w p = Err e -> is_OSError e = true.
Proof.
  unfold os_listdir. destruct (stat_at w CallListdir true p) as [[h n]|e'] eqn:E.
  - destruct n; intros [= <-]; reflexivity.
  - intros [= <-]. eapply stat_at_OSError, E.
Qed.

Lemma getsize_nonneg p sz : os_path_getsize w p = Ok sz -> 0 <= sz.
Proof.
  unfold os_path_getsize. destruct (stat_at w CallGetsize true p) as [[h n]|e'].
  - destruct n; intros [= <-]; lia.
  - discriminate.
Qed.

(** The body of the inner loop never raises: it adds the contribution of
    the file. *)
Lemma scan_file_step root file s :
  Py.try_except
    (let file_path := os_path_join root file in
     if (os_path_exists w file_path && negb (os_path_islink w file_path))%bool
     then
       let* sz := Py.lift (os_path_getsize w file_path) in
       Py.modify (add_size sz) ;;
       Py.modify (add_count 1)
     else Py.ret tt)
    is_OSError (fun _ => Py.ret tt) s
  = (Ok tt, pair_add s (file_contribution w root file)).
Proof.
  unfold file_contribution, Py.try_except. cbv zeta.
  destruct (os_path_exists w _ && negb (os_path_islink w _))%bool.
  - unfold Py.bind, Py.lift.
    destruct (os_path_getsize w (os_path_join root file)) as [sz|e] eqn:E.
    + destruct s as [a b]. unfold Py.modify, add_size, add_count, pair_add. simpl.
      reflexivity.
    + rewrite (getsize_OSError _ _ E). unfold Py.ret. by rewrite pair_add_0_r.
  - unfold Py.ret. by rewrite pair_add_0_r.
Qed.

Lemma scan_files_loop root files s :
  Py.for_ files (fun file =>
    Py.try_except
      (let file_path := os_path_join root file in
       if (os_path_exists w file_path && negb (os_path_islink w file_path))%bool
       then
         let* sz := Py.lift (os_path_getsize w file_path) in
         Py.modify (add_size sz) ;;
         Py.modify (add_count 1)
       else Py.ret tt)
      is_OSError (fun _ => Py.ret tt)) s
  = (Ok tt, pair_add s (files_total w root files)).
Proof.
  revert s. induction files as [|file files IH]; intros s.
  - simpl. unfold Py.ret. by rewrite pair_add_0_r.
  - cbn [Py.for_]. unfold Py.bind at 1. rewrite scan_file_step.
    rewrite IH. simpl. by rewrite pair_add_assoc.
Qed.

Lemma scan_walk_loop triples s :
  Py.for_ triples (fun '(root, _, files) =>
    Py.for_ files (fun file =>
      Py.try_except
        (let file_path := os_path_join root file in
         if (os_path_exists w file_path && negb (os_path_islink w file_path))%bool
         then
           let* sz := Py.lift (os_path_getsize w file_path) in
           Py.modify (add_size sz) ;;
           Py.modify (add_count 1)
         else Py.ret tt)
        is_OSError (fun _ => Py.ret tt))) s
  = (Ok tt, pair_add s (walk_total w triples)).
Proof.
  revert s. induction triples as [|[[root dirs] files] triples IH]; intros s.
  - simpl. unfold Py.ret. by rewrite pair_add_0_r.
  - cbn [Py.for_]. unfold Py.bind at 1. rewrite scan_files_loop.
    rewrite IH. simpl. by rewrite pair_add_assoc.
Qed.

(** The scan returns, and returns the measurement. *)
Lemma scan_directory_safely_measure p :
  scan_directory_safely w p = Ok (measure w p).
Proof.
  unfold scan_directory_safely, measure, Py.run, Py.try_except.
  destruct (negb (os_path_exists w p)); [reflexivity|].
  destruct (os_path_isfile w p).
  - unfold Py.bind, Py.lift. destruct (os_path_getsize w p) as [sz|e] eqn:E.
    + reflexivity.
    + by rewrite (getsize_OSError _ _ E).
  - unfold Py.bind at 1. rewrite scan_walk_loop. simpl.
    by rewrite pair_add_0_l.
Qed.

Lemma file_contribution_nonneg root file :
  0 <= fst (file_contribution w root file) /\ 0 <= snd (file_contribution w root file).
Proof.
  unfold file_contribution. cbv zeta.
  destruct (_ && _)%bool; [|simpl; lia].
  destruct (os_path_getsize w _) as [sz|e] eqn:E; simpl; [|lia].
  apply getsize_nonneg in E. lia.
Qed.

Lemma files_total_nonneg root files :
  0 <= fst (files_total w root files) /\ 0 <= snd (files_total w root files).
Proof.
  induction files as [|f files IH]; simpl; [lia|].
  pose proof (file_contribution_nonneg root f). lia.
Qed.

Lemma walk_total_nonneg triples :
  0 <= fst (walk_total w triples) /\ 0 <= snd (walk_total w triples).
Proof.
  induction triples as [|t triples IH]; simpl; [lia|].
  pose proof (files_total_nonneg (fst (fst t)) (snd t)). lia.
Qed.

Lemma measure_nonneg p : 0 <= fst (measure w p) /\ 0 <= snd (measure w p).
Proof.
  unfold measure. destruct (negb _); [simpl; lia|].
  destruct (os_path_isfile w p); [|apply walk_total_nonneg].
  destruct (os_path_getsize w p) as [sz|e] eqn:E; simpl; [|lia].
  apply getsize_nonneg in E. lia.
Qed.

(** A count of zero comes with a size of zero. *)
Lemma file_contribution_count_0 root file :
  snd (file_contribution w root file) = 0 -> file_contribution w root file = (0, 0).
Proof.
  unfold file_contribution. cbv zeta. destruct (_ && _)%bool; [|done].
  destruct (os_path_getsize w _); [discriminate|done].
Qed.

Lemma files_total_count_0 root files :
  snd (files_total w root files) = 0 -> files_total w root files = (0, 0).
Proof.
  induction files as [|f files IH]; simpl; [done|]. intros H.
  pose proof (file_contribution_nonneg root f).
  pose proof (files_total_nonneg root files).
  rewrite IH by lia. rewrite file_contribution_count_0 by lia. reflexivity.
Qed.

Lemma walk_total_count_0 triples :
  snd (walk_total w triples) = 0 -> walk_total w triples = (0, 0).
Proof.
  induction triples as [|t triples IH]; simpl; [done|]. intros H.
  pose proof (files_total_nonneg (fst (fst t)) (snd t)).
  pose proof (walk_total_nonneg triples).
  rewrite IH by lia. rewrite files_total_count_0 by lia. reflexivity.
Qed.

Lemma measure_count_0 p : snd (measure w p) = 0 -> measure w p = (0, 0).
Proof.
  unfold measure. destruct (negb _); [done|].
  destruct (os_path_isfile w p); [|apply walk_total_count_0].
  destruct (os_path_getsize w p); [discriminate|done].
Qed.

End Measure.

(** ** The reclaimer *)

Section Reclaim.
Variable others : moment -> world -> world.

Lemma try_except_Exception {S} (body : Py.M S unit) (s : S) :
  Py.try_except body is_Exception (fun _ => Py.ret tt) s = (Ok tt, snd (body s)).
Proof.
  unfold Py.try_except. destruct (body s) as [[[]|e] s']; reflexivity.
Qed.

(** The three ways through [clean_directory_safely]. *)
Lemma clean_directory_safely_absent path w :
  os_path_exists w path = false ->
  clean_directory_safely others path w = (Ok (0, 0), w).
Proof.
  intros H. unfold clean_directory_safely, Py.bind, Py.get. by rewrite H.
Qed.

Lemma clean_directory_safely_nothing path w :
  snd (measure w path) = 0 ->
  clean_directory_safely others path w = (Ok (0, 0), w).
Proof.
  intros H. unfold clean_directory_safely, Py.bind, Py.get.
  destruct (negb (os_path_exists w path)); [reflexivity|].
  unfold Py.lift. rewrite scan_directory_safely_measure.
  destruct (measure w path) as [isz icnt]. simpl in H. subst icnt. reflexivity.
Qed.

Lemma clean_directory_safely_full path w :
  os_path_exists w path = true ->
  snd (measure w path) <> 0 ->
  clean_directory_safely others path w =
  (Ok (Z.max 0 (snd (measure w path) - snd (measure (world_at_remeasure others path w) path)),
       Z.max 0 (fst (measure w path) - fst (measure (world_at_remeasure others path w) path))),
   world_at_remeasure others path w).
Proof.
  intros He Hc.
  unfold world_at_remeasure, attempt_deletion, clean_directory_safely.
  unfold Py.bind, Py.get, Py.modify, Py.lift. rewrite He. cbn [negb].
  rewrite scan_directory_safely_measure.
  destruct (measure w path) as [isz icnt] eqn:Em. cbn [fst snd] in *.
  apply Z.eqb_neq in Hc. rewrite Hc.
  rewrite try_except_Exception. cbn [fst snd].
  match goal with |- context [others AfterDeletion ?x] =>
    set (w2 := others AfterDeletion x) end.
  rewrite scan_directory_safely_measure.
  destruct (measure w2 path) as [fsz fcnt]. reflexivity.
Qed.

End Reclaim.

(** ** Machines for the examples *)


(** ** C1, C4: the reclaimer *)

(** C1. For every path, every machine and everything other processes do
    between the two measurements, [clean_directory_safely] returns
    [(max(0, beforeCount - afterCount), max(0, beforeBytes - afterBytes))],
    where [before] is the measurement of the path on entry and [after] the
    measurement of the same path on the machine the call leaves; when the
    path exists and holds a file, that machine is the one on which the call
    measured again, after the deletion attempt and the other processes'
    changes. Both fields of the result are non-negative. *)
Theorem clean_directory_safely_reclaims
    (others : moment -> world -> world) (w : world) (p : string) :
  exists before after : Z * Z,
    scan_directory_safely w p = Ok before /\
    scan_directory_safely (snd (clean_directory_safely others p w)) p = Ok after /\
    fst (clean_directory_safely others p w)
    = Ok (Z.max 0 (snd before - snd after), Z.max 0 (fst before - fst after)) /\
    (os_path_exists w p = true -> snd before <> 0 ->
     snd (clean_directory_safely others p w) = world_at_remeasure others p w) /\
    (forall files bytes,
       fst (clean_directory_safely others p w) = Ok (files, bytes) ->
       0 <= files /\ 0 <= bytes).
Proof.
  exists (measure w p), (measure (snd (clean_directory_safely others p w)) p).
  rewrite !scan_directory_safely_measure.
  split; [reflexivity|]. split; [reflexivity|].
  assert (Hmain : fst (clean_directory_safely others p w)
    = Ok (Z.max 0 (snd (measure w p)
                   - snd (measure (snd (clean_directory_safely others p w)) p)),
          Z.max 0 (fst (measure w p)
                   - fst (measure (snd (clean_directory_safely others p w)) p)))).
  { destruct (os_path_exists w p) eqn:He.
    - destruct (Z.eq_dec (snd (measure w p)) 0) as [Hc|Hc].
      + rewrite (clean_directory_safely_nothing others p w Hc).
        cbn [fst snd]. rewrite (measure_count_0 w p Hc). reflexivity.
      + rewrite (clean_directory_safely_full others p w He Hc). reflexivity.
    - rewrite (clean_directory_safely_absent others p w He). cbn [fst snd].
      unfold measure. rewrite He. reflexivity. }
  split; [exact Hmain|]. split.
  - intros He Hc. by rewrite (clean_directory_safely_full others p w He Hc).
  - intros files bytes H. rewrite Hmain in H. injection H as <- <-. lia.
Qed.

(** C4. When the measurement of a path is [(0, 0)] on entry, because the
    path does not exist or because it holds no file that counts (a
    directory of symbolic links, for one), [clean_directory_safely] returns
    [(0, 0)] and leaves the machine as it was: nothing is deleted, and a
    path that was absent stays absent. *)
Theorem clean_directory_safely_zero
    (others : moment -> world -> world) (w : world) (p : string) :
  scan_directory_safely w p = Ok (0, 0) ->
  clean_directory_safely others p w = (Ok (0, 0), w)
  /\ os_path_exists (snd (clean_directory_safely others p w)) p = os_path_exists w p.
Proof.
  rewrite scan_directory_safely_measure. intros [= H].
  assert (Hc : snd (measure w p) = 0) by (by rewrite H).
  rewrite (clean_directory_safely_nothing others p w Hc). by split.
Qed.

Lemma clean_directory_safely_zero_witness :
  scan_directory_safely (quiet links_only) "C:\links" = Ok (0, 0)
  /\ os_path_exists (quiet links_only) "C:\links" = true
  /\ clean_directory_safely idle "C:\links" (quiet links_only)
     = (Ok (0, 0), quiet links_only).
Proof.
  split; [reflexivity|]. split; [reflexivity|].
  apply (clean_directory_safely_zero idle (quiet links_only) "C:\links").
  reflexivity.
Defined.

(** A directory with files in it is deleted, and the result is its
    measurement. *)
Example clean_directory_safely_data :
  let r := clean_directory_safely idle "C:\data" (quiet links_only) in
  fst r = Ok (2, 30) /\ os_path_exists (snd r) "C:\data" = false.
Proof. split; reflexivity. Qed.

(** ** C3, C10: failures and links at the root of a scan *)

(** C3. [scan_directory_safely] never raises, whatever calls fail and on
    whatever paths: it returns the measurement, in which a listed file
    whose existence check fails or whose size cannot be read adds nothing
    to either accumulator, and a failure of the call made on the root path
    itself (the existence check, reading the size of a file, listing a
    directory) gives [(0, 0)]. *)
Theorem scan_directory_safely_never_raises (w : world) (p : string) :
  scan_directory_safely w p = Ok (measure w p)
  /\ (forall e, scan_directory_safely w p <> Err e)
  /\ (forall root file e,
        fs_fault w CallExists (os_path_join root file) = Some e
        \/ fs_fault w CallGetsize (os_path_join root file) = Some e ->
        file_contribution w root file = (0, 0))
  /\ (forall e, fs_fault w CallExists p = Some e ->
        scan_directory_safely w p = Ok (0, 0))
  /\ (forall e, os_path_isfile w p = true -> fs_fault w CallGetsize p = Some e ->
        scan_directory_safely w p = Ok (0, 0))
  /\ (forall e, os_path_isfile w p = false -> fs_fault w CallScandir p = Some e ->
        scan_directory_safely w p = Ok (0, 0)).
Proof.
  rewrite scan_directory_safely_measure.
  split; [reflexivity|]. split; [discriminate|]. split; [|split; [|split]].
  - intros root file e [H|H]; unfold file_contribution; cbv zeta.
    + unfold os_path_exists, stat_at. by rewrite H.
    + destruct (_ && _)%bool; [|reflexivity].
      unfold os_path_getsize, stat_at. by rewrite H.
  - intros e H. unfold measure, os_path_exists, stat_at. by rewrite H.
  - intros e Hf H. unfold measure. destruct (negb _); [reflexivity|].
    rewrite Hf. unfold os_path_getsize, stat_at. by rewrite H.
  - intros e Hf H. unfold measure. destruct (negb _); [reflexivity|].
    rewrite Hf. unfold os_walk.
    destruct (locate _ _ _) as [[h n]|]; [|reflexivity].
    destruct n; try reflexivity. simpl. by rewrite H.
Qed.



(** ** C9: the registry sentinel in a scan *)

Lemma scan_location_size_loop w location_paths :
  scan_location_size w location_paths
  = Py.run (0, 0) (Py.for_ location_paths (scan_pattern w) ;; Py.get).
Proof. reflexivity. Qed.

Lemma adds_scan_pattern w path_pattern : adds (scan_pattern w path_pattern).
Proof.
  unfold scan_pattern. destruct (String.eqb _ _); [apply adds_count_size|].
  destruct (is_firefox_profiles _).
  - apply adds_lift_bind. intros [sz n]. apply adds_size_count.
  - apply adds_lift_bind. intros paths. apply adds_for. intros path.
    apply adds_lift_bind. intros [sz n]. apply adds_size_count.
Qed.

Lemma run_for_get {A} (body : A -> Py.M (Z * Z) unit) (l : list A) :
  Py.run (0, 0) (Py.for_ l body ;; Py.get)
  = match fst (Py.for_ l body (0, 0)) with
    | Ok _ => Ok (snd (Py.for_ l body (0, 0)))
    | Err e => Err e
    end.
Proof.
  unfold Py.run, Py.bind, Py.get.
  destruct (Py.for_ l body (0, 0)) as [[[]|e] s]; reflexivity.
Qed.

(** The scan of a list of patterns is the sum of the scans of its parts,
    up to the first part that raises. *)
Lemma scan_location_size_app w l1 l2 :
  scan_location_size w (l1 ++ l2)
  = match scan_location_size w l1 with
    | Ok a =>
        match scan_location_size w l2 with
        | Ok b => Ok (pair_add a b)
        | Err e => Err e
        end
    | Err e => Err e
    end.
Proof.
  rewrite !scan_location_size_loop, !run_for_get, for_app.
  destruct (Py.for_ l1 (scan_pattern w) (0, 0)) as [[[]|e] s1]; [|reflexivity].
  cbn [fst snd].
  rewrite (adds_for (scan_pattern w) l2 (adds_scan_pattern w) s1). cbn [fst snd].
  destruct (fst (Py.for_ l2 (scan_pattern w) (0, 0))); reflexivity.
Qed.

(** C9. In every list of patterns and on every machine (whatever the file
    system holds, whatever calls fail, whatever the registry holds), an
    entry [REGISTRY_CLEANUP] adds exactly 1024 bytes and 1 file to the scan
    of the entries before and after it; scanned alone it gives
    [(1024, 1)], a value in which the machine does not appear. *)
Theorem scan_location_size_registry_sentinel
    (w : world) (before after : list string) :
  scan_location_size w (before ++ "REGISTRY_CLEANUP" :: after)
  = match scan_location_size w before with
    | Ok (size1, count1) =>
        match scan_location_size w after with
        | Ok (size2, count2) => Ok (size1 + 1024 + size2, count1 + 1 + count2)
        | Err e => Err e
        end
    | Err e => Err e
    end
  /\ scan_location_size w ["REGISTRY_CLEANUP"] = Ok (1024, 1).
Proof.
  split; [|reflexivity].
  change ("REGISTRY_CLEANUP" :: after) with (["REGISTRY_CLEANUP"] ++ after).
  rewrite !scan_location_size_app.
  change (scan_location_size w ["REGISTRY_CLEANUP"]) with (@Ok (Z * Z) (1024, 1)).
  destruct (scan_location_size w before) as [[size1 count1]|e]; [|reflexivity].
  destruct (scan_location_size w after) as [[size2 count2]|e]; [|reflexivity].
  unfold pair_add. cbn [fst snd]. do 2 f_equal; lia.
Qed.

(** ** Paths of the entries of a directory *)

Lemma append_cons c s t : String c s +:+ t = String c (s +:+ t).
Proof. reflexivity. Qed.


Lemma append_assoc s t u : (s +:+ t) +:+ u = s +:+ t +:+ u.
Proof. induction s as [|c s IH]; [reflexivity|]. by rewrite !append_cons, IH. Qed.










(** ** C2: the measurement of a tree *)




Section Tree.
Variable w : world.
Hypothesis quiet_w : no_faults w.






End Tree.





(** ** C6: the profile root *)

Lemma scan_profiles_loop w root profiles s :
  Py.for_ profiles (fun profile =>
    let cache_dir := os_path_join (os_path_join root profile) "cache2" in
    if os_path_isdir w cache_dir then
      let* (size, count) := Py.lift (scan_directory_safely w cache_dir) in
      Py.modify (add_size size) ;;
      Py.modify (add_count count)
    else Py.ret tt) s
  = (Ok tt,
     pair_add s (foldr (fun profile acc => pair_add (cache_measure w root profile) acc)
                       (0, 0) profiles)).
Proof.
  revert s. induction profiles as [|profile profiles IH]; intros s.
  - simpl. unfold Py.ret. by rewrite pair_add_0_r.
  - cbn [Py.for_ foldr]. unfold Py.bind at 1. unfold cache_measure at 1. cbv zeta.
    destruct (os_path_isdir w _).
    + unfold Py.bind at 1, Py.lift. rewrite scan_directory_safely_measure.
      destruct (measure w _) as [size count].
      unfold Py.bind at 1, Py.modify. rewrite IH.
      destruct s as [a b]. unfold add_size, add_count, pair_add. cbn [fst snd].
      do 2 f_equal; lia.
    + unfold Py.ret at 1. rewrite IH. by rewrite pair_add_0_l.
Qed.

Lemma scan_firefox_cache_total w root :
  scan_firefox_cache w root = Ok (profiles_total w root).
Proof.
  unfold scan_firefox_cache, profiles_total, Py.run, Py.bind at 1, Py.try_except.
  destruct (os_path_exists w root); [|reflexivity].
  unfold Py.bind at 1, Py.lift.
  destruct (os_listdir w root) as [profiles|e] eqn:El.
  - rewrite scan_profiles_loop. by rewrite pair_add_0_l.
  - by rewrite (listdir_OSError w root e El).
Qed.

(** C6. [scan_firefox_cache] returns the sum, over the names listed in the
    profile root, of the measurement of the [cache2] subdirectory of each;
    a root that does not exist gives [(0, 0)], a child without a [cache2]
    subdirectory adds [(0, 0)], and nothing is raised. With three profiles
    whose [cache2] each hold a file of 10 and a file of 20 bytes the result
    is [(90, 6)], also through [scan_location_size]. *)
Theorem scan_firefox_cache_sums (w : world) (root : string) :
  scan_firefox_cache w root = Ok (profiles_total w root)
  /\ (os_path_exists w root = false -> scan_firefox_cache w root = Ok (0, 0))
  /\ (forall profile,
        os_path_isdir w (os_path_join (os_path_join root profile) "cache2") = false ->
        cache_measure w root profile = (0, 0))
  /\ (forall profile,
        os_path_isdir w (os_path_join (os_path_join root profile) "cache2") = true ->
        scan_directory_safely w (os_path_join (os_path_join root profile) "cache2")
        = Ok (cache_measure w root profile))
  /\ scan_firefox_cache (quiet three_profiles) profiles_root = Ok (90, 6)
  /\ scan_location_size (quiet three_profiles) [profiles_root] = Ok (90, 6).
Proof.
  rewrite scan_firefox_cache_total. split; [reflexivity|].
  split; [|split; [|split; [|split]]].
  - intros H. unfold profiles_total. by rewrite H.
  - intros profile H. unfold cache_measure. cbv zeta. by rewrite H.
  - intros profile H. unfold cache_measure. cbv zeta.
    by rewrite H, scan_directory_safely_measure.
  - reflexivity.
  - reflexivity.
Qed.

(** ** C7: the run history *)











(** A computation whose only normal result is [v]. *)
Lemma returns_only_bind {S A B} (m : Py.M S A) (k : A -> Py.M S B) (v : B) :
  (forall a s r s', k a s = (Ok r, s') -> r = v) ->
  forall s r s', Py.bind m k s = (Ok r, s') -> r = v.
Proof.
  intros Hk s r s'. unfold Py.bind. destruct (m s) as [[a|e] s1]; [apply Hk|discriminate].
Qed.

Lemma try_except_Exception_value {S A} (body : Py.M S A) (v : A) (s : S) :
  fst (Py.try_except body is_Exception (fun _ => Py.ret v) s)
  = match fst (body s) with
    | Ok r => Ok r
    | Err _ => Ok v
    end.
Proof. unfold Py.try_except. by destruct (body s) as [[r|e] s']. Qed.

(** The call never raises, and returns one of two values. *)
Lemma clear_run_history_values w :
  fst (clear_run_history w) = Ok (1, 1024) \/ fst (clear_run_history w) = Ok (0, 0).
Proof.
  unfold clear_run_history. rewrite try_except_Exception_value.
  match goal with |- context [fst (?b w)] =>
    destruct (b w) as [[r|e] w'] eqn:E end; [left|right; reflexivity].
  cbn [fst]. f_equal. revert E.
  apply returns_only_bind. intros w0 ? ? ?.
  apply returns_only_bind. intros key ? ? ?.
  apply returns_only_bind. intros mrulist ? ? ?.
  apply returns_only_bind. intros _ ? ? ?.
  apply returns_only_bind. intros _ ? ? ?.
  unfold Py.ret. by intros [= <- _].
Qed.



(** Four stored values, all named by [MRUList]: all four are deleted and
    [MRUList] is left empty; an absent key gives [(0, 0)]. *)
Example clear_run_history_four_commands :
  fst (clear_run_history (with_hkcu four_commands)) = Ok (1, 1024)
  /\ (key_values <$> run_mru_node (snd (clear_run_history (with_hkcu four_commands))))
     = Some (list_to_map [("MRUList", "")])
  /\ fst (clear_run_history (with_hkcu no_registry)) = Ok (0, 0).
Proof. split; [|split]; vm_compute; reflexivity. Qed.

(** ** C8: installed applications *)








Section Apps.
Variable w : world.

Lemma OpenKey_OSError key sub_key sam e :
  OpenKey w key sub_key sam = Err e -> is_OSError e = true.
Proof.
  unfold OpenKey, key_of. destruct (find_key _ _) as [k|]; [|by intros [= <-]].
  destruct (grants _ _); [discriminate|by intros [= <-]].
Qed.

Lemma QueryValueEx_OSError key value_name e :
  QueryValueEx w key value_name = Err e -> is_OSError e = true.
Proof.
  unfold QueryValueEx, key_of. destruct (find_key _ _) as [k|]; [|by intros [= <-]].
  destruct (_ !! _); [discriminate|by intros [= <-]].
Qed.

Lemma read_subkey_step key k i subkey_name installed_apps :
  key_of w key = Ok k ->
  map fst (key_subkeys k) !! i = Some subkey_name ->
  read_subkey w key i installed_apps
  = (Ok tt, installed_apps ++ option_list (app_of_subkey w key subkey_name)).
Proof.
  intros Hk Hi. unfold read_subkey, Py.try_except, Py.bind at 1, Py.lift at 1.
  unfold EnumKey. rewrite Hk. rewrite list_lookup_fmap in Hi.
  destruct (key_subkeys k !! i) as [[n k']|]; [|discriminate].
  injection Hi as ->. unfold app_of_subkey.
  unfold Py.bind at 1, Py.lift at 1.
  destruct (OpenKey w key subkey_name KEY_READ) as [subkey|e] eqn:Eo.
  2:{ rewrite (OpenKey_OSError _ _ _ _ Eo). unfold Py.ret. by rewrite app_nil_r. }
  unfold Py.bind at 1, Py.lift at 1.
  destruct (QueryValueEx w subkey "DisplayName") as [d|e] eqn:Ed.
  2:{ rewrite (QueryValueEx_OSError _ _ _ Ed). unfold Py.ret. by rewrite app_nil_r. }
  unfold Py.bind at 1, Py.lift at 1.
  destruct (QueryValueEx w subkey "UninstallString") as [u|e] eqn:Eu.
  2:{ rewrite (QueryValueEx_OSError _ _ _ Eu). unfold Py.ret. by rewrite app_nil_r. }
  destruct (truthy d && truthy u)%bool; [reflexivity|].
  unfold Py.ret. by rewrite app_nil_r.
Qed.

Lemma read_subkeys_loop key k names start installed_apps :
  key_of w key = Ok k ->
  (forall i name, names !! i = Some name ->
     map fst (key_subkeys k) !! (start + i)%nat = Some name) ->
  Py.for_ (seq start (length names)) (read_subkey w key) installed_apps
  = (Ok tt, installed_apps ++ omap (app_of_subkey w key) names).
Proof.
  intros Hk. revert start installed_apps.
  induction names as [|name names IH]; intros start installed_apps Hn.
  - cbn. unfold Py.ret. by rewrite app_nil_r.
  - cbn [length seq Py.for_]. unfold Py.bind.
    rewrite (read_subkey_step key k start name installed_apps Hk).
    2:{ specialize (Hn 0%nat name eq_refl). by rewrite Nat.add_0_r in Hn. }
    rewrite (IH (S start)).
    2:{ intros i n Hi. specialize (Hn (S i) n Hi).
        by rewrite Nat.add_succ_r in Hn. }
    rewrite <- app_assoc. cbn [omap list_omap].
    by destruct (app_of_subkey w key name).
Qed.

(** One turn of the outer loop: the applications of one root are appended. *)
Lemma read_root_step root installed_apps :
  readable_or_absent w root ->
  Py.try_except
    (let* key := Py.lift (OpenKey w root uninstall_key KEY_READ) in
     let* n := Py.lift (QueryInfoKey_subkeys w key) in
     Py.for_ (seq 0 n) (fun i =>
       Py.try_except
         (let* subkey_name := Py.lift (EnumKey w key i) in
          let* subkey := Py.lift (OpenKey w key subkey_name KEY_READ) in
          let* display_name := Py.lift (QueryValueEx w subkey "DisplayName") in
          let* uninstall_string :=
            Py.lift (QueryValueEx w subkey "UninstallString") in
          if (truthy display_name && truthy uninstall_string)%bool
          then Py.modify (fun installed_apps =>
                            installed_apps ++ [App display_name uninstall_string])
          else Py.ret tt)
         is_OSError (fun _ => Py.ret tt)))
    is_FileNotFoundError (fun _ => Py.ret tt) installed_apps
  = (Ok tt, installed_apps ++ apps_under w root).
Proof.
  intros Hroot. unfold apps_under, readable_or_absent in *.
  unfold Py.try_except at 1, Py.bind at 1, Py.lift at 1.
  destruct (OpenKey w root uninstall_key KEY_READ) as [key|e] eqn:Eo.
  - assert (Hk : exists k, key_of w key = Ok k).
    { revert Eo. unfold OpenKey.
      destruct (key_of w (HKey _ _)) as [k|] eqn:Ek; [|discriminate].
      destruct (grants _ _); [|discriminate]. intros [= <-]. by exists k. }
    destruct Hk as [k Hk]. rewrite Hk.
    unfold Py.bind at 1, Py.lift at 1, QueryInfoKey_subkeys. rewrite Hk.
    change (fun i => Py.try_except _ is_OSError _) with (read_subkey w key).
    rewrite <- (length_map fst (key_subkeys k)).
    by rewrite (read_subkeys_loop key k (map fst (key_subkeys k)) 0 installed_apps Hk).
  - revert Eo Hroot. unfold OpenKey, key_of.
    destruct (find_key _ _) as [k|].
    + destruct (grants _ _); [discriminate|]. by intros [= <-] [].
    + intros [= <-] _. unfold Py.ret. by rewrite app_nil_r.
Qed.


End Apps.





(** ** C5: a failure that is not an [OSError] *)










(** * Further properties: lists of entries, the catalog, deletion *)

Lemma sound_total_0 : sound_total (0, 0).
Proof. unfold sound_total. simpl. lia. Qed.

Lemma sound_total_add x y : sound_total x -> sound_total y -> sound_total (pair_add x y).
Proof. unfold sound_total, pair_add. simpl. lia. Qed.

Lemma sound_total_measure w p : sound_total (measure w p).
Proof.
  pose proof (measure_nonneg w p) as [Hb Hc].
  pose proof (measure_count_0 w p) as Hz.
  split; [exact Hb|]. split; [exact Hc|]. intros Hn. by rewrite (Hz Hn).
Qed.

Lemma sound_total_profiles w root : sound_total (profiles_total w root).
Proof.
  unfold profiles_total. destruct (os_path_exists w root); [|apply sound_total_0].
  destruct (os_listdir w root) as [profiles|]; [|apply sound_total_0].
  induction profiles as [|profile profiles IH]; [apply sound_total_0|].
  cbn [foldr]. apply sound_total_add; [|exact IH].
  unfold cache_measure. cbv zeta.
  destruct (os_path_isdir w _); [apply sound_total_measure|apply sound_total_0].
Qed.

Lemma sound_total_for {A} (body : A -> Py.M (Z * Z) unit) (l : list A) :
  (forall x s, sound_total s -> sound_total (snd (body x s))) ->
  forall s, sound_total s -> sound_total (snd (Py.for_ l body s)).
Proof.
  intros Hb. induction l as [|x l IH]; intros s Hs; [exact Hs|].
  cbn [Py.for_]. unfold Py.bind. specialize (Hb x s Hs).
  destruct (body x s) as [[[]|e] s']; [by apply IH|exact Hb].
Qed.

Lemma sound_total_size_count sz n s :
  sound_total (sz, n) -> sound_total s ->
  sound_total (snd ((Py.modify (add_size sz) ;; Py.modify (add_count n)) s)).
Proof.
  destruct s as [a b]. unfold Py.bind, Py.modify, add_size, add_count, sound_total.
  simpl. lia.
Qed.

Lemma sound_total_scan_pattern w p s :
  sound_total s -> sound_total (snd (scan_pattern w p s)).
Proof.
  intros Hs. unfold scan_pattern. destruct (String.eqb _ _).
  - destruct s as [a b]. revert Hs.
    unfold Py.bind, Py.modify, add_size, add_count, sound_total. simpl. lia.
  - destruct (is_firefox_profiles p).
    + unfold Py.bind at 1, Py.lift. rewrite scan_firefox_cache_total.
      pose proof (sound_total_profiles w p) as Hp.
      destruct (profiles_total w p) as [sz n]. by apply sound_total_size_count.
    + unfold Py.bind at 1, Py.lift. destruct (glob_glob w p) as [paths|e]; [|exact Hs].
      apply sound_total_for; [|exact Hs]. intros path s' Hs'.
      unfold Py.bind at 1, Py.lift. rewrite scan_directory_safely_measure.
      pose proof (sound_total_measure w path) as Hp.
      destruct (measure w path) as [sz n]. by apply sound_total_size_count.
Qed.

(** ** The cleaner, entry by entry *)

Lemma clean_directory_safely_ok others path w :
  exists r w', clean_directory_safely others path w = (Ok r, w') /\ nonneg r.
Proof.
  destruct (os_path_exists w path) eqn:He.
  - destruct (Z.eq_dec (snd (measure w path)) 0) as [Hc|Hc].
    + rewrite (clean_directory_safely_nothing others path w Hc).
      eexists _, _. split; [reflexivity|]. unfold nonneg. simpl. lia.
    + rewrite (clean_directory_safely_full others path w He Hc).
      eexists _, _. split; [reflexivity|]. unfold nonneg. simpl. lia.
  - rewrite (clean_directory_safely_absent others path w He).
    eexists _, _. split; [reflexivity|]. unfold nonneg. simpl. lia.
Qed.

Lemma nonneg_add_pair d f s : nonneg (d, f) -> nonneg s -> nonneg (add_pair d f s).
Proof. unfold nonneg, add_pair. simpl. lia. Qed.

(** A loop that cleans one path per turn never raises and keeps its totals
    non-negative. *)
Lemma clean_paths_loop others (paths : list string) w s :
  nonneg s ->
  exists w' s',
    Py.for_ paths (fun path =>
      let* (d, f) := Locals.on_world (clean_directory_safely others path) in
      Locals.modify (add_pair d f)) (w, s)
    = (Ok tt, (w', s'))
    /\ nonneg s'.
Proof.
  revert w s. induction paths as [|path paths IH]; intros w s Hs.
  - by exists w, s.
  - cbn [Py.for_]. unfold Py.bind at 1. unfold Py.bind at 1, Locals.on_world at 1.
    cbn [fst snd].
    destruct (clean_directory_safely_ok others path w) as ([d f] & w1 & -> & Hr).
    unfold Locals.modify at 1. cbn [fst snd]. apply IH. by apply nonneg_add_pair.
Qed.

Lemma clean_profiles_loop others root (profiles : list string) w s :
  nonneg s ->
  exists w' s',
    Py.for_ profiles (fun profile =>
      let cache_dir := os_path_join (os_path_join root profile) "cache2" in
      let* w := Locals.on_world Py.get in
      if os_path_isdir w cache_dir then
        let* (deleted, freed) :=
          Locals.on_world (clean_directory_safely others cache_dir) in
        Locals.modify (add_pair deleted freed)
      else Py.ret tt) (w, s)
    = (Ok tt, (w', s'))
    /\ nonneg s'.
Proof.
  revert w s. induction profiles as [|profile profiles IH]; intros w s Hs.
  - by exists w, s.
  - cbn [Py.for_]. unfold Py.bind at 1. cbv zeta.
    unfold Py.bind at 1, Locals.on_world at 1, Py.get at 1. cbn [fst snd].
    destruct (os_path_isdir w _).
    + unfold Py.bind at 1, Locals.on_world at 1. cbn [fst snd].
      destruct (clean_directory_safely_ok others
                  (os_path_join (os_path_join root profile) "cache2") w)
        as ([d f] & w1 & -> & Hr).
      unfold Locals.modify at 1. cbn [fst snd]. apply IH. by apply nonneg_add_pair.
    + unfold Py.ret at 1. by apply IH.
Qed.

(** [clean_firefox_cache] never raises; its result is non-negative, and
    [(0, 0)] with the machine untouched when the profile root does not
    exist or cannot be listed. *)
Lemma clean_firefox_cache_ok others root w :
  exists r w', clean_firefox_cache others root w = (Ok r, w') /\ nonneg r.
Proof.
  unfold clean_firefox_cache, Locals.with_locals, Py.bind at 1, Py.try_except.
  unfold Py.bind at 1, Locals.on_world at 1, Py.get at 1. cbn [fst snd].
  destruct (os_path_exists w root).
  - unfold Py.bind at 1, Py.lift at 1.
    destruct (os_listdir w root) as [profiles|e] eqn:El.
    + destruct (clean_profiles_loop others root profiles w (0, 0))
        as (w' & s' & Hloop & Hs'); [unfold nonneg; simpl; lia|].
      cbv zeta in Hloop. rewrite Hloop.
      eexists _, _. split; [reflexivity|]. exact Hs'.
    + rewrite (listdir_OSError w root e El).
      eexists _, _. split; [reflexivity|]. unfold nonneg. simpl. lia.
  - eexists _, _. split; [reflexivity|]. unfold nonneg. simpl. lia.
Qed.

Lemma clear_run_history_ok w :
  exists r w', clear_run_history w = (Ok r, w') /\ nonneg r.
Proof.
  destruct (clear_run_history w) as [r w'] eqn:E.
  pose proof (clear_run_history_values w) as H. rewrite E in H. cbn [fst] in H.
  destruct H as [-> | ->]; eexists _, _; (split; [reflexivity|]);
    unfold nonneg; simpl; lia.
Qed.

(** What [clean_pattern] returns when it returns is non-negative, and it
    raises only what [glob.glob] raises. *)
Lemma clean_pattern_outcome others p w :
  (exists r w', clean_pattern others p w = (Ok r, w') /\ nonneg r)
  \/ (exists e, glob_glob w p = Err e /\ clean_pattern others p w = (Err e, w)).
Proof.
  unfold clean_pattern. destruct (String.eqb p "REGISTRY_CLEANUP").
  { left. apply clear_run_history_ok. }
  destruct (is_firefox_profiles p).
  { left. apply clean_firefox_cache_ok. }
  destruct (glob_glob w p) as [paths|e] eqn:Eg.
  - left. unfold Py.bind at 1, Py.get at 1. unfold Py.bind at 1, Py.lift at 1.
    rewrite Eg. unfold Locals.with_locals, Py.bind at 1.
    destruct (clean_paths_loop others paths w (0, 0)) as (w' & s' & -> & Hs').
    { unfold nonneg. simpl. lia. }
    eexists _, _. split; [reflexivity|]. exact Hs'.
  - right. exists e. split; [reflexivity|].
    unfold Py.bind at 1, Py.get at 1. unfold Py.bind at 1, Py.lift at 1.
    by rewrite Eg.
Qed.

(** One turn of the loop of [clean_location]. *)
Lemma clean_location_step others p w s :
  (let* (deleted, freed) :=
     if String.eqb p "REGISTRY_CLEANUP" then
       Locals.on_world clear_run_history
     else if is_firefox_profiles p then
       Locals.on_world (clean_firefox_cache others p)
     else
       let* w := Locals.on_world Py.get in
       let* paths := Py.lift (glob_glob w p) in
       Locals.on_world
         (Locals.with_locals (0, 0)
            (Py.for_ paths (fun path =>
               let* (d, f) := Locals.on_world (clean_directory_safely others path) in
               Locals.modify (add_pair d f)) ;;
             Locals.get)) in
   Locals.modify (add_pair deleted freed)) (w, s)
  = match clean_pattern others p w with
    | (Ok (deleted, freed), w') => (Ok tt, (w', add_pair deleted freed s))
    | (Err e, w') => (Err e, (w', s))
    end.
Proof.
  unfold clean_pattern. unfold Py.bind at 1.
  destruct (String.eqb p "REGISTRY_CLEANUP").
  { unfold Locals.on_world. cbn [fst snd].
    by destruct (clear_run_history w) as [[[d f]|e] w']. }
  destruct (is_firefox_profiles p).
  { unfold Locals.on_world. cbn [fst snd].
    by destruct (clean_firefox_cache others p w) as [[[d f]|e] w']. }
  unfold Py.bind, Py.get, Py.lift, Locals.on_world. cbn [fst snd].
  destruct (glob_glob w p) as [paths|e]; [|reflexivity].
  match goal with |- context [Locals.with_locals (0, 0) ?m w] =>
    destruct (Locals.with_locals (0, 0) m w) as [[[d f]|e] w'] end; reflexivity.
Qed.

Lemma clean_location_loop others location_paths :
  clean_location others location_paths
  = Locals.with_locals (0, 0)
      (Py.for_ location_paths (clean_entry others) ;; Locals.get).
Proof. reflexivity. Qed.

Lemma clean_entry_step others p w s :
  clean_entry others p (w, s)
  = match clean_pattern others p w with
    | (Ok (deleted, freed), w') => (Ok tt, (w', add_pair deleted freed s))
    | (Err e, w') => (Err e, (w', s))
    end.
Proof. apply clean_location_step. Qed.

(** The totals on entry only shift the totals on exit. *)
Lemma clean_entries_shift others l w s :
  Py.for_ l (clean_entry others) (w, s)
  = (fst (Py.for_ l (clean_entry others) (w, (0, 0))),
     (fst (snd (Py.for_ l (clean_entry others) (w, (0, 0)))),
      pair_add s (snd (snd (Py.for_ l (clean_entry others) (w, (0, 0))))))).
Proof.
  revert w s. induction l as [|p l IH]; intros w s.
  - cbn. by rewrite pair_add_0_r.
  - cbn [Py.for_]. unfold Py.bind. rewrite !clean_entry_step.
    destruct (clean_pattern others p w) as [[[d f]|e] w1]; cbn [fst snd].
    + rewrite (IH w1 (add_pair d f s)), (IH w1 (add_pair d f (0, 0))). cbn [fst snd].
      do 2 f_equal. unfold pair_add, add_pair. cbn [fst snd]. f_equal; lia.
    + by rewrite pair_add_0_r.
Qed.

Lemma clean_location_run others l w :
  clean_location others l w
  = match Py.for_ l (clean_entry others) (w, (0, 0)) with
    | (Ok _, (w', totals)) => (Ok totals, w')
    | (Err e, (w', _)) => (Err e, w')
    end.
Proof.
  rewrite clean_location_loop. unfold Locals.with_locals, Py.bind, Locals.get.
  by destruct (Py.for_ l (clean_entry others) (w, (0, 0))) as [[[]|e] [w' t]].
Qed.

Lemma clean_location_app others l1 l2 w :
  clean_location others (l1 ++ l2) w
  = match clean_location others l1 w with
    | (Ok (deleted1, freed1), w1) =>
        match clean_location others l2 w1 with
        | (Ok (deleted2, freed2), w2) =>
            (Ok (deleted1 + deleted2, freed1 + freed2), w2)
        | (Err e, w2) => (Err e, w2)
        end
    | (Err e, w1) => (Err e, w1)
    end.
Proof.
  rewrite !clean_location_run, for_app.
  destruct (Py.for_ l1 (clean_entry others) (w, (0, 0))) as [[[]|e] [w1 [d1 f1]]];
    [|reflexivity].
  rewrite clean_location_run, (clean_entries_shift others l2 w1 (d1, f1)).
  destruct (Py.for_ l2 (clean_entry others) (w1, (0, 0))) as [[[]|e] [w2 [d2 f2]]];
    reflexivity.
Qed.

Lemma clean_location_single others p w :
  clean_location others [p] w = clean_pattern others p w.
Proof.
  rewrite clean_location_run. cbn [Py.for_]. unfold Py.bind.
  rewrite clean_entry_step.
  destruct (clean_pattern others p w) as [[[d f]|e] w1]; [|reflexivity].
  unfold Py.ret, add_pair. cbn [fst snd]. by rewrite !Z.add_0_l.
Qed.

Lemma glob_glob_plain w p : has_magic p = false -> exists paths, glob_glob w p = Ok paths.
Proof. intros H. unfold glob_glob. rewrite H. by eexists. Qed.

Lemma clean_location_cons others p l w :
  clean_location others (p :: l) w
  = match clean_pattern others p w with
    | (Ok (deleted1, freed1), w1) =>
        match clean_location others l w1 with
        | (Ok (deleted2, freed2), w2) =>
            (Ok (deleted1 + deleted2, freed1 + freed2), w2)
        | (Err e, w2) => (Err e, w2)
        end
    | (Err e, w1) => (Err e, w1)
    end.
Proof.
  change (p :: l) with ([p] ++ l).
  by rewrite clean_location_app, clean_location_single.
Qed.

Lemma clean_location_nonneg_aux others l :
  forall w r w', clean_location others l w = (Ok r, w') -> nonneg r.
Proof.
  induction l as [|p l IH]; intros w r w'.
  - intros [= <- _]. unfold nonneg. simpl. lia.
  - rewrite clean_location_cons.
    destruct (clean_pattern_outcome others p w) as [(r1 & w1 & -> & Hr1)|(e & _ & ->)];
      [|discriminate].
    destruct r1 as [d1 f1].
    destruct (clean_location others l w1) as [[[d2 f2]|e] w2] eqn:E2; [|discriminate].
    intros [= <- _]. specialize (IH _ _ _ E2). revert Hr1 IH. unfold nonneg. simpl. lia.
Qed.

Lemma clean_location_plain_aux others l :
  (forall p, In p l -> has_magic p = false) ->
  forall w, exists r w', clean_location others l w = (Ok r, w') /\ nonneg r.
Proof.
  induction l as [|p l IH]; intros Hl w.
  - eexists _, _. split; [reflexivity|]. unfold nonneg. simpl. lia.
  - rewrite clean_location_cons.
    destruct (clean_pattern_outcome others p w) as [(r1 & w1 & -> & Hr1)|(e & Hg & _)].
    + destruct r1 as [d1 f1].
      destruct (IH (fun q Hq => Hl q (or_intror Hq)) w1) as ([d2 f2] & w2 & -> & Hr2).
      eexists _, _. split; [reflexivity|]. revert Hr1 Hr2. unfold nonneg. simpl. lia.
    + destruct (glob_glob_plain w p (Hl p (or_introl eq_refl))) as [paths Hp].
      congruence.
Qed.

Lemma scan_location_size_plain_aux w l :
  (forall p, In p l -> has_magic p = false) ->
  exists r, scan_location_size w l = Ok r.
Proof.
  induction l as [|p l IH]; intros Hl; [by eexists|].
  change (p :: l) with ([p] ++ l). rewrite scan_location_size_app.
  destruct (IH (fun q Hq => Hl q (or_intror Hq))) as [r2 ->].
  assert (exists r1, scan_location_size w [p] = Ok r1) as [r1 ->]; [|by eexists].
  rewrite scan_location_size_loop, run_for_get. cbn [Py.for_]. unfold Py.bind.
  assert (exists s, scan_pattern w p (0, 0) = (Ok tt, s)) as [s ->]; [|by eexists].
  unfold scan_pattern. destruct (String.eqb _ _); [by eexists|].
  destruct (is_firefox_profiles p).
  - unfold Py.bind at 1, Py.lift. rewrite scan_firefox_cache_total.
    destruct (profiles_total w p). by eexists.
  - unfold Py.bind at 1, Py.lift.
    destruct (glob_glob_plain w p (Hl p (or_introl eq_refl))) as [paths ->].
    generalize (0, 0). induction paths as [|path paths IHp]; intros s; [by eexists|].
    cbn [Py.for_]. unfold Py.bind at 1. unfold Py.bind at 1, Py.lift.
    rewrite scan_directory_safely_measure. destruct (measure w path).
    unfold Py.bind at 1, Py.modify at 1. unfold Py.modify at 1. apply IHp.
Qed.

Lemma scan_location_size_cons_ok w p l r :
  scan_location_size w (p :: l) = Ok r ->
  exists r1 r2,
    scan_location_size w [p] = Ok r1 /\ scan_location_size w l = Ok r2
    /\ r = pair_add r1 r2.
Proof.
  change (p :: l) with ([p] ++ l). rewrite scan_location_size_app.
  destruct (scan_location_size w [p]) as [r1|]; [|discriminate].
  destruct (scan_location_size w l) as [r2|]; [|discriminate].
  intros [= <-]. by exists r1, r2.
Qed.

Lemma scan_location_size_cons_sum w p l r1 r2 :
  scan_location_size w [p] = Ok r1 -> scan_location_size w l = Ok r2 ->
  scan_location_size w (p :: l) = Ok (pair_add r1 r2).
Proof.
  intros H1 H2. change (p :: l) with ([p] ++ l).
  by rewrite scan_location_size_app, H1, H2.
Qed.

Lemma pair_add_comm x y : pair_add x y = pair_add y x.
Proof. unfold pair_add. f_equal; lia. Qed.

Lemma scan_location_size_perm w l l' :
  Permutation l l' ->
  forall r, scan_location_size w l = Ok r -> scan_location_size w l' = Ok r.
Proof.
  induction 1 as [|p l l' Hp IH|p q l|l l' l'' H1 IH1 H2 IH2]; intros r Hr.
  - exact Hr.
  - destruct (scan_location_size_cons_ok w p l r Hr) as (r1 & r2 & H1 & H2 & ->).
    apply scan_location_size_cons_sum; [exact H1|by apply IH].
  - destruct (scan_location_size_cons_ok w _ _ r Hr) as (rq & r' & Hq & H' & ->).
    destruct (scan_location_size_cons_ok w _ _ r' H') as (rp & rl & Hp & Hl & ->).
    rewrite (scan_location_size_cons_sum w p (q :: l) rp (pair_add rq rl) Hp
               (scan_location_size_cons_sum w q l rq rl Hq Hl)).
    f_equal. rewrite <- !pair_add_assoc. f_equal. apply pair_add_comm.
  - by apply IH2, IH1.
Qed.

(** * Further properties of the scanner and the cleaner *)

(** X1. A scan that returns gives non-negative bytes and a non-negative
    file count, and no bytes without a file: a count of zero comes with a
    size of zero. *)
Theorem scan_location_size_sound (w : world) (location_paths : list string)
    (size count : Z) :
  scan_location_size w location_paths = Ok (size, count) ->
  0 <= size /\ 0 <= count /\ (count = 0 -> size = 0).
Proof.
  rewrite scan_location_size_loop, run_for_get.
  pose proof (sound_total_for (scan_pattern w) location_paths
                (sound_total_scan_pattern w) (0, 0) sound_total_0) as H.
  destruct (fst (Py.for_ _ _ _)); [|discriminate].
  intros [= E]. rewrite E in H. exact H.
Qed.

Lemma scan_location_size_sound_witness :
  scan_location_size (quiet mixed) ["C:\mixed"; "REGISTRY_CLEANUP"] = Ok (1066, 4)
  /\ 0 <= 1066 /\ 0 <= 4 /\ (4 = 0 -> 1066 = 0).
Proof.
  split; [reflexivity|].
  apply (scan_location_size_sound (quiet mixed) ["C:\mixed"; "REGISTRY_CLEANUP"]).
  reflexivity.
Defined.

(** X2. The scan of a list is the sum of the scans of its entries, so an
    entry that is listed twice is counted twice; and when the scan
    returns, the order of the entries does not change the result. *)
Theorem scan_location_size_additive (w : world) (l l' : list string) (r : Z * Z) :
  scan_location_size w l = Ok r ->
  scan_location_size w (l ++ l) = Ok (2 * fst r, 2 * snd r)
  /\ (Permutation l l' -> scan_location_size w l' = Ok r).
Proof.
  intros Hr. split.
  - rewrite scan_location_size_app, Hr. unfold pair_add. do 2 f_equal; lia.
  - intros Hp. by apply (scan_location_size_perm w l l' Hp).
Qed.

Lemma scan_location_size_additive_witness :
  scan_location_size (quiet mixed) (["C:\mixed"; "C:\data"] ++ ["C:\mixed"; "C:\data"])
  = Ok (144, 10)
  /\ scan_location_size (quiet mixed) ["C:\data"; "C:\mixed"] = Ok (72, 5).
Proof.
  destruct (scan_location_size_additive (quiet mixed) ["C:\mixed"; "C:\data"]
              ["C:\data"; "C:\mixed"] (72, 5)) as [Htwice Hperm].
  - reflexivity.
  - split; [exact Htwice|]. apply Hperm. apply perm_swap.
Defined.

(** X3. A list without wildcard patterns is scanned without an exception,
    on every machine: only [glob.glob] on a pattern with wildcards can make
    [scan_location_size] raise. *)
Theorem scan_location_size_no_wildcards (w : world) (location_paths : list string) :
  (forall p, In p location_paths -> has_magic p = false) ->
  exists size count, scan_location_size w location_paths = Ok (size, count).
Proof.
  intros Hl. destruct (scan_location_size_plain_aux w location_paths Hl) as [[s c] H].
  by exists s, c.
Qed.

Lemma scan_location_size_no_wildcards_witness :
  exists size count,
    scan_location_size null_world ["C:\Temp"; "REGISTRY_CLEANUP"] = Ok (size, count).
Proof.
  apply (scan_location_size_no_wildcards null_world ["C:\Temp"; "REGISTRY_CLEANUP"]).
  intros p [<-|[<-|[]]]; reflexivity.
Defined.

(** X4. [clean_location] handles its entries one after the other: cleaning
    [l1 ++ l2] is cleaning [l1], then [l2] on the machine that leaves, and
    adding the two results; an exception in [l1] ends the call before [l2]
    is touched. The entry [REGISTRY_CLEANUP] alone is
    [clear_run_history]. *)
Theorem clean_location_composes
    (others : moment -> world -> world) (l1 l2 : list string) (w : world) :
  clean_location others (l1 ++ l2) w
  = match clean_location others l1 w with
    | (Ok (deleted1, freed1), w1) =>
        match clean_location others l2 w1 with
        | (Ok (deleted2, freed2), w2) =>
            (Ok (deleted1 + deleted2, freed1 + freed2), w2)
        | (Err e, w2) => (Err e, w2)
        end
    | (Err e, w1) => (Err e, w1)
    end
  /\ clean_location others ["REGISTRY_CLEANUP"] w = clear_run_history w.
Proof.
  split; [apply clean_location_app|]. by rewrite clean_location_single.
Qed.

(** X5. The two fields of a result of [clean_location] are never
    negative, whatever the machine and the other processes do. *)
Theorem clean_location_nonneg
    (others : moment -> world -> world) (location_paths : list string)
    (w w' : world) (files_deleted bytes_freed : Z) :
  clean_location others location_paths w = (Ok (files_deleted, bytes_freed), w') ->
  0 <= files_deleted /\ 0 <= bytes_freed.
Proof. intros H. exact (clean_location_nonneg_aux others location_paths w _ w' H). Qed.

Lemma clean_location_nonneg_witness :
  clean_location idle ["C:\mixed"; "REGISTRY_CLEANUP"] (quiet mixed)
  = (Ok (3, 42), set_fs_root (quiet mixed)
                   (Dir [("C:", Dir [("data", Dir [("a.txt", File 10);
                                                   ("b.txt", File 20)])])]))
  /\ 0 <= 3 /\ 0 <= 42.
Proof.
  split; [vm_compute; reflexivity|].
  apply (clean_location_nonneg idle ["C:\mixed"; "REGISTRY_CLEANUP"] (quiet mixed)
           (set_fs_root (quiet mixed)
              (Dir [("C:", Dir [("data", Dir [("a.txt", File 10);
                                              ("b.txt", File 20)])])]))).
  vm_compute. reflexivity.
Defined.

(** X6. A list without wildcard patterns is cleaned without an exception,
    whatever fails underneath: deletion failures, access failures and a
    missing or protected registry key all end in a result. *)
Theorem clean_location_no_wildcards
    (others : moment -> world -> world) (location_paths : list string) (w : world) :
  (forall p, In p location_paths -> has_magic p = false) ->
  exists files_deleted bytes_freed w',
    clean_location others location_paths w = (Ok (files_deleted, bytes_freed), w')
    /\ 0 <= files_deleted /\ 0 <= bytes_freed.
Proof.
  intros Hl.
  destruct (clean_location_plain_aux others location_paths Hl w) as ([d f] & w' & H & Hn).
  by exists d, f, w'.
Qed.

Lemma clean_location_no_wildcards_witness :
  exists files_deleted bytes_freed w',
    clean_location idle ["C:\Temp"; "REGISTRY_CLEANUP"] null_world
    = (Ok (files_deleted, bytes_freed), w')
    /\ 0 <= files_deleted /\ 0 <= bytes_freed.
Proof.
  apply (clean_location_no_wildcards idle ["C:\Temp"; "REGISTRY_CLEANUP"] null_world).
  intros p [<-|[<-|[]]]; reflexivity.
Defined.

(** X7. [clean_firefox_cache] never raises and its result is never
    negative; when the profile root does not exist it returns [(0, 0)] and
    leaves the machine as it was. *)
Theorem clean_firefox_cache_outcome
    (others : moment -> world -> world) (root : string) (w : world) :
  (exists deleted freed w',
     clean_firefox_cache others root w = (Ok (deleted, freed), w')
     /\ 0 <= deleted /\ 0 <= freed)
  /\ (os_path_exists w root = false ->
      clean_firefox_cache others root w = (Ok (0, 0), w)).
Proof.
  split.
  - destruct (clean_firefox_cache_ok others root w) as ([d f] & w' & H & Hn).
    by exists d, f, w'.
  - intros He. unfold clean_firefox_cache, Locals.with_locals, Py.bind at 1, Py.try_except.
    unfold Py.bind at 1, Locals.on_world at 1, Py.get at 1. cbn [fst snd].
    by rewrite He.
Qed.

Example clean_firefox_cache_three_profiles :
  fst (clean_firefox_cache idle profiles_root (quiet three_profiles)) = Ok (6, 90).
Proof. vm_compute. reflexivity. Qed.

Lemma classic_errno (e : exn) : e = OSError EACCES \/ e <> OSError EACCES.
Proof. destruct e as [[]| | |]; (by left) || (right; discriminate). Qed.

(** X8. When the [Uninstall] key of a root exists but the process may not
    read it, [get_installed_apps] raises [PermissionError]: the handler
    around a root catches [FileNotFoundError] only, and the applications of
    the other root are not returned either. *)
Theorem get_installed_apps_denied (w : world) :
  OpenKey w HKCU uninstall_key KEY_READ = Err (OSError EACCES)
  \/ OpenKey w HKLM uninstall_key KEY_READ = Err (OSError EACCES) ->
  get_installed_apps w = Err (OSError EACCES).
Proof.
  intros H.
  assert (Hcase : OpenKey w HKCU uninstall_key KEY_READ = Err (OSError EACCES)
                  \/ readable_or_absent w HKCU).
  { unfold readable_or_absent.
    destruct (OpenKey w HKCU uninstall_key KEY_READ) as [key|e]; [by right|].
    destruct (classic_errno e) as [->|He]; [by left|right; congruence]. }
  unfold get_installed_apps, Py.run, Py.bind at 1. cbn [Py.for_].
  unfold Py.bind at 1. destruct Hcase as [Hu|Hu].
  - unfold Py.try_except at 1, Py.bind at 1, Py.lift at 1. by rewrite Hu.
  - rewrite (read_root_step w HKCU [] Hu).
    destruct H as [H|H]; [by destruct Hu|].
    unfold Py.bind at 1, Py.try_except at 1, Py.bind at 1, Py.lift at 1.
    by rewrite H.
Qed.

Lemma get_installed_apps_denied_witness :
  get_installed_apps locked_root = Err (OSError EACCES)
  /\ apps_under locked_root HKCU = [App "Zip" "zip-remove"].
Proof.
  split; [|vm_compute; reflexivity].
  apply (get_installed_apps_denied locked_root). right. vm_compute. reflexivity.
Defined.




Lemma temp_locations_distinct environ : NoDup (map fst (temp_locations environ)).
Proof.
  apply (@bool_decide_unpack _ (NoDup_dec (map fst (temp_locations environ)))).
  vm_compute. exact I.
Qed.


Lemma contains_append needle a b :
  contains needle b = true -> contains needle (a +:+ b) = true.
Proof.
  intros Hb. induction a as [|c a IH]; [exact Hb|].
  rewrite append_cons. cbn [contains]. rewrite IH. apply orb_true_r.
Qed.

Lemma last_char_append a c b :
  last_char (a +:+ String c b) = last_char (String c b).
Proof.
  unfold last_char. induction a as [|x a IH]; [reflexivity|].
  rewrite append_cons. cbn [list_ascii_of_string] in *.
  destruct (list_ascii_of_string (a +:+ String c b)) as [|y l] eqn:E.
  - destruct a; discriminate.
  - exact IH.
Qed.

Lemma os_path_join_suffix a b : exists pre, os_path_join a b = pre +:+ b.
Proof.
  unfold os_path_join. destruct (last_char a) as [c|]; [|by exists ""].
  destruct (is_sep c); [by exists a|].
  exists (a +:+ "\"). by rewrite append_assoc.
Qed.

(** Whatever the first argument, the path of the Firefox profiles ends in
    the marker. *)
Lemma firefox_entry_suffix a :
  exists pre, join_all a ["Mozilla"; "Firefox"; "Profiles"] = pre +:+ "Firefox\Profiles".
Proof.
  unfold join_all. cbn [foldl].
  destruct (os_path_join_suffix (os_path_join a "Mozilla") "Firefox") as [pre Hpre].
  rewrite Hpre. exists pre. unfold os_path_join.
  change (pre +:+ "Firefox") with (pre +:+ String "F"%char "irefox").
  rewrite last_char_append. change (last_char "Firefox") with (Some "x"%char).
  cbn [is_sep]. change (is_sep "x"%char) with false. cbv iota.
  by rewrite !append_assoc.
Qed.

Lemma firefox_entry_marked a :
  is_firefox_profiles (join_all a ["Mozilla"; "Firefox"; "Profiles"]) = true
  /\ String.eqb (join_all a ["Mozilla"; "Firefox"; "Profiles"]) "REGISTRY_CLEANUP" = false.
Proof.
  destruct (firefox_entry_suffix a) as [pre ->].
  assert (Hm : contains "Firefox\Profiles" (pre +:+ "Firefox\Profiles") = true)
    by (by apply contains_append).
  split.
  - unfold is_firefox_profiles. by rewrite Hm.
  - apply String.eqb_neq. intros Heq. rewrite Heq in Hm. discriminate.
Qed.

(** X10. The catalog of [SystemScanner.__init__] has distinct category
    names, and whatever the environment holds for [LOCALAPPDATA] its
    Firefox entry carries the marker and is not the registry sentinel: on
    every machine it is scanned by [scan_firefox_cache] and cleaned by
    [clean_firefox_cache], never through [glob.glob]. *)
Theorem temp_locations_firefox_entry
    (environ : gmap string string) (w : world) (others : moment -> world -> world) :
  NoDup (map fst (temp_locations environ))
  /\ (exists before after,
        getitem (temp_locations environ) "Clear Internet Cache"
        = Ok (before ++ firefox_entry environ :: after))
  /\ is_firefox_profiles (firefox_entry environ) = true
  /\ scan_location_size w [firefox_entry environ]
     = scan_firefox_cache w (firefox_entry environ)
  /\ clean_location others [firefox_entry environ] w
     = clean_firefox_cache others (firefox_entry environ) w.
Proof.
  destruct (firefox_entry_marked (environ_get environ "LOCALAPPDATA")) as [Hm Hr].
  fold (firefox_entry environ) in Hm, Hr.
  split; [apply temp_locations_distinct|]. split; [|split; [exact Hm|split]].
  - eexists [_; _], _. reflexivity.
  - rewrite scan_location_size_loop, run_for_get. cbn [Py.for_]. unfold Py.bind at 1 2.
    unfold scan_pattern. rewrite Hr, Hm. unfold Py.bind at 1 2, Py.lift.
    rewrite scan_firefox_cache_total. by destruct (profiles_total w _).
  - rewrite clean_location_single. unfold clean_pattern. by rewrite Hr, Hm.
Qed.

(** ** What the registry cleanup leaves alone *)

Lemma same_outside_hkcu_refl w : same_outside_hkcu w w.
Proof. by repeat split. Qed.

Lemma same_outside_hkcu_trans w1 w2 w3 :
  same_outside_hkcu w1 w2 -> same_outside_hkcu w2 w3 -> same_outside_hkcu w1 w3.
Proof. unfold same_outside_hkcu. intros (?&?&?&?) (?&?&?&?). repeat split; congruence. Qed.

Lemma keeps_ret {A} (a : A) : keeps_outside_hkcu (Py.ret a).
Proof. intros w. apply same_outside_hkcu_refl. Qed.

Lemma keeps_lift {A} (r : result A) : keeps_outside_hkcu (Py.lift r).
Proof. intros w. apply same_outside_hkcu_refl. Qed.

Lemma keeps_bind {A B} (m : Py.M world A) (k : A -> Py.M world B) :
  keeps_outside_hkcu m -> (forall a, keeps_outside_hkcu (k a)) ->
  keeps_outside_hkcu (Py.bind m k).
Proof.
  intros Hm Hk w. unfold Py.bind. specialize (Hm w).
  destruct (m w) as [[a|e] w1]; [|exact Hm].
  eapply same_outside_hkcu_trans; [exact Hm|apply Hk].
Qed.

Lemma keeps_try_except {A} (body : Py.M world A) classes handler :
  keeps_outside_hkcu body -> (forall e, keeps_outside_hkcu (handler e)) ->
  keeps_outside_hkcu (Py.try_except body classes handler).
Proof.
  intros Hb Hh w. unfold Py.try_except. specialize (Hb w).
  destruct (body w) as [[a|e] w1]; [exact Hb|].
  destruct (classes e); [|exact Hb].
  eapply same_outside_hkcu_trans; [exact Hb|apply Hh].
Qed.

Lemma keeps_for {A} (l : list A) (body : A -> Py.M world unit) :
  (forall x, keeps_outside_hkcu (body x)) -> keeps_outside_hkcu (Py.for_ l body).
Proof.
  intros Hb. induction l as [|x l IH]; [apply keeps_ret|].
  cbn [Py.for_]. apply keeps_bind; [apply Hb|]. intros _. exact IH.
Qed.

Lemma keeps_update_values path f w :
  same_outside_hkcu w (update_values (HKey HKEY_CURRENT_USER path) f w).
Proof. by repeat split. Qed.

Lemma keeps_DeleteValue path value :
  keeps_outside_hkcu (DeleteValue (HKey HKEY_CURRENT_USER path) value).
Proof.
  intros w. unfold DeleteValue. destruct (QueryValueEx w _ value).
  - apply keeps_update_values.
  - apply same_outside_hkcu_refl.
Qed.

Lemma keeps_SetValueEx path value_name data :
  keeps_outside_hkcu (SetValueEx (HKey HKEY_CURRENT_USER path) value_name data).
Proof.
  intros w. unfold SetValueEx. destruct (key_of w _).
  - apply keeps_update_values.
  - apply same_outside_hkcu_refl.
Qed.

Lemma OpenKey_hive w key sub_key sam opened :
  OpenKey w key sub_key sam = Ok opened -> hk_hive opened = hk_hive key.
Proof.
  unfold OpenKey. destruct (key_of w _); [|discriminate].
  destruct (grants _ _); [|discriminate]. by intros [= <-].
Qed.

Lemma keeps_bind_lift {A B} (r : result A) (k : A -> Py.M world B) :
  (forall a, r = Ok a -> keeps_outside_hkcu (k a)) ->
  keeps_outside_hkcu (Py.bind (Py.lift r) k).
Proof.
  intros Hk w. unfold Py.bind, Py.lift. destruct r as [a|e].
  - by apply Hk.
  - apply same_outside_hkcu_refl.
Qed.

Lemma keeps_clear_run_history : keeps_outside_hkcu clear_run_history.
Proof.
  unfold clear_run_history. apply keeps_try_except; [|intros e; apply keeps_ret].
  apply keeps_bind; [intros w; apply same_outside_hkcu_refl|]. intros w.
  apply keeps_bind_lift. intros [h path] Hopen.
  apply OpenKey_hive in Hopen. cbn [hk_hive HKCU] in Hopen. subst h.
  apply keeps_bind_lift. intros mrulist _.
  apply keeps_bind.
  - apply keeps_for. intros value_name.
    apply keeps_try_except; [apply keeps_DeleteValue|intros e; apply keeps_ret].
  - intros _. apply keeps_bind; [apply keeps_SetValueEx|]. intros _. apply keeps_ret.
Qed.

Lemma scan_directory_safely_same_files w w' p :
  fs_root w' = fs_root w -> fs_fault w' = fs_fault w ->
  scan_directory_safely w' p = scan_directory_safely w p.
Proof.
  destruct w as [r f g hu hm], w' as [r' f' g' hu' hm']. cbn [fs_root fs_fault].
  intros -> ->. reflexivity.
Qed.

(** X11. [clear_run_history] changes nothing outside the registry hive of
    the current user, whether it succeeds or fails: the file system and the
    hive of the machine are as they were, and so is every measurement. *)
Theorem clear_run_history_frame (w : world) :
  fs_root (snd (clear_run_history w)) = fs_root w
  /\ hklm (snd (clear_run_history w)) = hklm w
  /\ (forall p, scan_directory_safely (snd (clear_run_history w)) p
                = scan_directory_safely w p).
Proof.
  destruct (keeps_clear_run_history w) as (Hfs & Hfault & _ & Hm).
  split; [exact Hfs|]. split; [exact Hm|].
  intros p. by apply scan_directory_safely_same_files.
Qed.

(** ** Deleting *)















Lemma no_faults_set_fs_root w r : no_faults w -> no_faults (set_fs_root w r).
Proof. intros Hq call p. apply Hq. Qed.






(** ** The clean worker *)





Example clean_thread_sample :
  fst (clean_thread (temp_locations sample_environ) status_shown idle
         ["Clean User's Temp"; "Clear Internet Cache"; "Clear Desktop Run History"]
         sample_machine)
  = Ok (clean_complete 4 1181)
  /\ fst (clean_thread (temp_locations sample_environ) status_shown idle
            ["Clean Downloads"] sample_machine)
     = Ok (clean_error KeyError).
Proof. split; vm_compute; reflexivity. Qed.

(** ** Plain entries, and entries listed twice *)

Lemma plain_entry_cases p :
  plain_entry p = true ->
  String.eqb p "REGISTRY_CLEANUP" = false /\ is_firefox_profiles p = false
  /\ has_magic p = false.
Proof.
  unfold plain_entry. intros [[H1 H2]%andb_true_iff H3]%andb_true_iff.
  by rewrite !negb_true_iff in H1, H2, H3.
Qed.

Lemma scan_location_size_plain_entry w p :
  plain_entry p = true ->
  scan_location_size w [p]
  = if os_path_lexists w p then scan_directory_safely w p else Ok (0, 0).
Proof.
  intros (Hr & Hf & Hm)%plain_entry_cases.
  assert (Hfor : Py.for_ [p] (scan_pattern w) (0, 0)
                 = (Ok tt, if os_path_lexists w p then measure w p else (0, 0))).
  { cbn [Py.for_]. unfold Py.bind at 1, scan_pattern. rewrite Hr, Hf.
    unfold glob_glob. rewrite Hm. unfold Py.bind at 1, Py.lift at 1.
    destruct (os_path_lexists w p); [|reflexivity].
    cbn [Py.for_]. unfold Py.bind, Py.lift. rewrite scan_directory_safely_measure.
    by destruct (measure w p). }
  rewrite scan_location_size_loop, run_for_get, Hfor. cbn [fst snd].
  rewrite scan_directory_safely_measure. by destruct (os_path_lexists w p).
Qed.

Lemma clean_location_plain_entry others p w :
  plain_entry p = true ->
  clean_location others [p] w
  = if os_path_lexists w p then clean_directory_safely others p w
    else (Ok (0, 0), w).
Proof.
  intros (Hr & Hf & Hm)%plain_entry_cases.
  rewrite clean_location_single. unfold clean_pattern. rewrite Hr, Hf.
  unfold Py.bind at 1, Py.get at 1. unfold Py.bind at 1, Py.lift at 1, glob_glob.
  rewrite Hm. destruct (os_path_lexists w p); [|reflexivity].
  unfold Locals.with_locals, Py.bind at 1. cbn [Py.for_].
  unfold Py.bind at 1. unfold Py.bind at 1, Locals.on_world at 1. cbn [fst snd].
  destruct (clean_directory_safely_ok others p w) as ([d f] & w1 & -> & _).
  unfold Locals.modify, Py.ret, Locals.get, add_pair. cbn [fst snd].
  by rewrite !Z.add_0_l.
Qed.

(** X15. An entry that is a plain path (no sentinel, no wildcard)
    contributes the measurement of that path when it exists, and nothing
    when it does not; cleaning it is [clean_directory_safely] on the path,
    or nothing at all when it does not exist. *)
Theorem plain_entry_dispatch
    (others : moment -> world -> world) (w : world) (p : string) :
  plain_entry p = true ->
  scan_location_size w [p]
  = (if os_path_lexists w p then scan_directory_safely w p else Ok (0, 0))
  /\ clean_location others [p] w
     = (if os_path_lexists w p then clean_directory_safely others p w
        else (Ok (0, 0), w)).
Proof.
  intros Hp. split.
  - by apply scan_location_size_plain_entry.
  - by apply clean_location_plain_entry.
Qed.

Lemma plain_entry_dispatch_witness :
  scan_location_size (quiet mixed) ["C:\data"] = Ok (30, 2)
  /\ scan_location_size (quiet mixed) ["C:\absent"] = Ok (0, 0)
  /\ clean_location idle ["C:\absent"] (quiet mixed) = (Ok (0, 0), quiet mixed).
Proof.
  split; [|split].
  - destruct (plain_entry_dispatch idle (quiet mixed) "C:\data") as [Hs _];
      [reflexivity|]. rewrite Hs. reflexivity.
  - destruct (plain_entry_dispatch idle (quiet mixed) "C:\absent") as [Hs _];
      [reflexivity|]. rewrite Hs. reflexivity.
  - destruct (plain_entry_dispatch idle (quiet mixed) "C:\absent") as [_ Hc];
      [reflexivity|]. rewrite Hc. reflexivity.
Defined.




(** ** What a deletion leaves alone *)







